(** * Distributed notification system: reliable delivery pipeline

    A shallow embedding of the JavaScript services of the repository:
    - the email worker, [src/emailService/email_service.js];
    - the push worker, [src/pushService/push_service.js] (its commented
      copy is [src/unnamed/part_003]);
    - the gateway route [POST /api/v1/notifications/] (first file of
      [src/unnamed/part_002]) with the Redis plugin it uses
      ([src/apiGateway/src/plugins/redis.js]) and the helper
      [createResponse] of [src/apiGateway/src/utils/response.js].

    JavaScript values that stay schema-less at the boundary ([metadata],
    [variables], [meta]) are kept in a small value type [jsval]; the
    message format that the services document is a record.  Effects
    (Redis, the message bus, the external backends behind their circuit
    breakers, timers, the clock, the uuid generator) are threaded through
    one state-and-exception monad [M] over a [world]; every effect is
    appended to a trace, so that the order and the number of the effects of
    a handler can be stated on the trace. *)

From Stdlib Require Import ZArith NArith List Ascii String Bool Lia.
From stdpp Require Import base option gmap strings list pretty.

Import ListNotations.
Local Open Scope Z_scope.
Set Warnings "-register-all".

(** ** JavaScript values *)

Module JS.

(** [JUndefined] stands for an absent property.  Numbers are the integers
    (a JavaScript number is a double: the integers up to [2^53] in absolute
    value are the ones it holds exactly, and fractions are not represented);
    strings are byte strings (one character per UTF-16 unit is assumed where
    [length] is taken).  [JNative] is a built-in function object such as the
    members that every object inherits from [Object.prototype]. *)
Inductive jsval :=
| JUndefined
| JNull
| JBool (b : bool)
| JNum (n : Z)
| JStr (s : string)
| JArr (items : list jsval)
| JObj (props : list (string * jsval))
| JNative (name : string).

Abbreviation props := (list (string * jsval)).

(** ToBoolean, as used by [if (x)], [!x], [x || y] and [c ? a : b]. *)
Definition truthy (v : jsval) : bool :=
  match v with
  | JUndefined | JNull => false
  | JBool b => b
  | JNum n => negb (n =? 0)
  | JStr s => negb (String.eqb s "")
  | JArr _ | JObj _ | JNative _ => true
  end.

(** [a || b] *)
Definition js_or (a b : jsval) : jsval := if truthy a then a else b.

(** [a ?? b] *)
Definition js_nullish (a b : jsval) : jsval :=
  match a with
  | JUndefined | JNull => b
  | _ => a
  end.

(** [typeof v === "string"] *)
Definition is_string (v : jsval) : bool :=
  match v with JStr _ => true | _ => false end.

Definition is_boolean (v : jsval) : bool :=
  match v with JBool _ => true | _ => false end.

(** First binding of a key in a property list. *)
Fixpoint assoc (ps : props) (k : string) : option jsval :=
  match ps with
  | [] => None
  | (k', v) :: rest => if String.eqb k' k then Some v else assoc rest k
  end.

(** The own properties of [Object.prototype]; every plain object (an object
    literal, an object decoded by [JSON.parse]) inherits them. *)
Definition Object_prototype : props :=
  [ ("constructor", JNative "Object");
    ("__defineGetter__", JNative "__defineGetter__");
    ("__defineSetter__", JNative "__defineSetter__");
    ("hasOwnProperty", JNative "hasOwnProperty");
    ("__lookupGetter__", JNative "__lookupGetter__");
    ("__lookupSetter__", JNative "__lookupSetter__");
    ("isPrototypeOf", JNative "isPrototypeOf");
    ("propertyIsEnumerable", JNative "propertyIsEnumerable");
    ("toString", JNative "toString");
    ("valueOf", JNative "valueOf");
    ("__proto__", JObj []);
    ("toLocaleString", JNative "toLocaleString") ].

(** [obj[k]] on a plain object: own properties first, then the prototype. *)
Definition js_get (obj : props) (k : string) : jsval :=
  match assoc obj k with
  | Some v => v
  | None => default JUndefined (assoc Object_prototype k)
  end.

(** [obj?.[k]] where [obj] is a plain object, or absent ([None]: the
    property holding it is [undefined] or [null]). *)
Definition js_get_opt (obj : option props) (k : string) : jsval :=
  match obj with
  | Some ps => js_get ps k
  | None => JUndefined
  end.

(** [obj[k] = v]: an existing key keeps its place, a new key is appended. *)
Fixpoint js_put (obj : props) (k : string) (v : jsval) : props :=
  match obj with
  | [] => [(k, v)]
  | (k', v') :: rest =>
      if String.eqb k' k then (k', v) :: rest else (k', v') :: js_put rest k v
  end.

(** [Object.assign(target, source)] for a plain source object. *)
Definition Object_assign (target source : props) : props :=
  fold_left (fun acc kv => js_put acc (fst kv) (snd kv)) source target.

Definition has_key (obj : props) (k : string) : bool :=
  match assoc obj k with Some _ => true | None => false end.

(** ToString, as applied by [String.prototype.replace] to the value its
    callback returns, and by a template literal.  It is the text that
    JavaScript produces for strings, booleans, [null], [undefined], the
    integers below [10^21] in absolute value (printed in decimal; a larger
    number is printed with an exponent, which is not modelled), and for
    arrays and objects that have no [toString] or [valueOf] member of their
    own (an object with such a member that is not callable makes ToString
    throw). *)
Fixpoint js_to_string (v : jsval) : string :=
  match v with
  | JUndefined => "undefined"
  | JNull => "null"
  | JBool true => "true"
  | JBool false => "false"
  | JNum n => pretty n
  | JStr s => s
  | JArr items =>
      String.concat ","
        (map (fun x => match x with
                       | JUndefined | JNull => ""
                       | _ => js_to_string x
                       end) items)
  | JObj _ => "[object Object]"
  | JNative name => "function " +:+ name +:+ "() { [native code] }"
  end.

(** White space of [\s] and of [String.prototype.trim], on ASCII. *)
Definition is_space (c : ascii) : bool :=
  let n := nat_of_ascii c in
  ((9 <=? n) && (n <=? 13))%nat || (n =? 32)%nat.

Fixpoint trim_start (s : string) : string :=
  match s with
  | String c tl => if is_space c then trim_start tl else s
  | EmptyString => EmptyString
  end.

Fixpoint trim_end (s : string) : string :=
  match s with
  | EmptyString => EmptyString
  | String c tl =>
      match trim_end tl with
      | EmptyString => if is_space c then EmptyString else String c EmptyString
      | tl' => String c tl'
      end
  end.

Definition trim (s : string) : string := trim_end (trim_start s).

End JS.
Export JS.

(** ** Errors and results

    A JavaScript [Error] is represented by its [message]. *)

Inductive result (A : Type) :=
| Ok (a : A)
| Throw (message : string).
Arguments Ok {A} a.
Arguments Throw {A} message.

(** ** Renderer ([render_template], email_service.js lines 81-90) *)

Module Renderer.

Definition dquote : string := String (ascii_of_nat 34) EmptyString.

Definition welcome_v1 : string :=
  "<p>Hi {{name}}, welcome! Click <a href=" +:+ dquote +:+ "{{link}}"
  +:+ dquote +:+ ">here</a>.</p>".

Definition otp_v1 : string := "<p>Your OTP is: {{otp}}</p>".

Definition generic_template : string := "{{name}} - notification".

(** [const templates = { "welcome_v1": ..., "otp_v1": ... }], a plain object
    literal. *)
Definition templates : props :=
  [ ("welcome_v1", JStr welcome_v1); ("otp_v1", JStr otp_v1) ].

(** The longest prefix of [s] without the character [stop], and what
    follows it. *)
Fixpoint span_until (stop : ascii) (s : string) : string * string :=
  match s with
  | EmptyString => (EmptyString, EmptyString)
  | String c tl =>
      if Ascii.eqb c stop then (EmptyString, s)
      else let '(run, rest) := span_until stop tl in (String c run, rest)
  end.

(** One match of [/{{\s*([^}]+)\s*}}/] anchored at the head of [s].  Every
    character between the braces is matched by [\s] or by [[^}]], so a match
    exists exactly when the two opening braces are followed by a non-empty
    run without a closing brace and then by two closing braces.  The result
    is that run (the captured group is the run without its leading white
    space, or a single space when the run is blank: both have the same
    [trim]) and the length of the match. *)
Definition match_placeholder (s : string) : option (string * nat) :=
  match s with
  | String "{" (String "{" rest) =>
      let '(run, after) := span_until "}" rest in
      match run, after with
      | String _ _, String "}" (String "}" _) =>
          Some (run, (String.length run + 4)%nat)
      | _, _ => None
      end
  | _ => None
  end.

(** [tpl.replace(/{{\s*([^}]+)\s*}}/g, (_, key) => f(key))]: leftmost
    matches, left to right, without overlap; [skip] counts the characters
    of the current match that are still to be passed over. *)
Fixpoint replace_placeholders (f : string -> string) (skip : nat) (s : string)
  : string :=
  match s with
  | EmptyString => EmptyString
  | String c tl =>
      match skip with
      | S k => replace_placeholders f k tl
      | O =>
          match match_placeholder s with
          | Some (key, len) => f key +:+ replace_placeholders f (len - 1) tl
          | None => String c (replace_placeholders f 0 tl)
          end
      end
  end.

(** The callback [(_, key) => variables?.[key.trim()] ?? ""], followed by
    the ToString that [replace] applies to its result. *)
Definition expand (variables : option props) (key : string) : string :=
  js_to_string (js_nullish (js_get_opt variables (trim key)) (JStr "")).

(** [render_template(template_code, variables)].  A template that is not a
    string has no [replace] method: calling it raises a TypeError. *)
Definition render_template (template_code : string) (variables : option props)
  : result string :=
  let tpl := js_or (js_get templates template_code) (JStr generic_template) in
  match tpl with
  | JStr t => Ok (replace_placeholders (expand variables) 0 t)
  | _ => Throw "tpl.replace is not a function"
  end.

(** [html.replace(/<[^>]*>/g, "")] *)
Definition match_tag (s : string) : option nat :=
  match s with
  | String "<" rest =>
      let '(run, after) := span_until ">" rest in
      match after with
      | String ">" _ => Some (String.length run + 2)%nat
      | _ => None
      end
  | _ => None
  end.

Fixpoint strip_tags_from (skip : nat) (s : string) : string :=
  match s with
  | EmptyString => EmptyString
  | String c tl =>
      match skip with
      | S k => strip_tags_from k tl
      | O =>
          match match_tag s with
          | Some len => strip_tags_from (len - 1) tl
          | None => String c (strip_tags_from 0 tl)
          end
      end
  end.

Definition strip_tags (html : string) : string := strip_tags_from 0 html.

End Renderer.

(** ** Messages, the status store, the bus and the backends *)

Module Platform.

(** EnqueuedMessage / FailedRecord: the JSON object carried by the bus.
    A field is [None] when the property is absent.  [attempts] is the
    worker-maintained retry count, a natural number when present: this is
    what the workers write.  A message whose [attempts] is negative,
    fractional or not a number (the consumers would pass it through
    [Number(...)]) is not represented. *)
Record payload := {
  notification_type : option string;
  user_id : option string;
  template_code : option string;
  variables : option props;
  request_id : option string;
  priority : option Z;
  metadata : option props;
  created_at : option string;
  attempts : option N;
  notification_id : option string;
  error : option string;
  failed_at : option string }.

Definition set_attempts (p : payload) (n : N) : payload :=
  {| notification_type := notification_type p; user_id := user_id p;
     template_code := template_code p; variables := variables p;
     request_id := request_id p; priority := priority p;
     metadata := metadata p; created_at := created_at p;
     attempts := Some n;
     notification_id := notification_id p; error := error p;
     failed_at := failed_at p |}.

Definition set_created_at (p : payload) (t : string) : payload :=
  {| notification_type := notification_type p; user_id := user_id p;
     template_code := template_code p; variables := variables p;
     request_id := request_id p; priority := priority p;
     metadata := metadata p; created_at := Some t;
     attempts := attempts p;
     notification_id := notification_id p; error := error p;
     failed_at := failed_at p |}.

(** [{ ...payload, error, failed_at, notification_id }] *)
Definition failed_record (p : payload) (err failed notif : string) : payload :=
  {| notification_type := notification_type p; user_id := user_id p;
     template_code := template_code p; variables := variables p;
     request_id := request_id p; priority := priority p;
     metadata := metadata p; created_at := created_at p;
     attempts := attempts p;
     notification_id := Some notif; error := Some err;
     failed_at := Some failed |}.

(** The content of a bus message as [JSON.parse] sees it: the text of a
    message object, the text [null], or text that is not JSON.  The text of
    a JSON array or of a JSON number, string or boolean, which [JSON.parse]
    accepts as well, is not represented: a statement over [bus_body] says
    nothing about such a message. *)
Inductive bus_body :=
| BodyJson (p : payload)
| BodyNull
| BodyMalformed (raw : string).

Definition JSON_parse (content : bus_body) : result (option payload) :=
  match content with
  | BodyJson p => Ok (Some p)
  | BodyNull => Ok None
  | BodyMalformed _ => Throw "Unexpected token in JSON"
  end.

(** A Redis string value: [VJson doc] is the text [JSON.stringify(doc)]
    (never empty), [VRaw s] is any other text [s]. *)
Inductive redis_value :=
| VJson (doc : jsval)
| VRaw (s : string).

(** ToBoolean of what [redis.get] resolves to. *)
Definition present (v : option redis_value) : bool :=
  match v with
  | None => false
  | Some (VJson _) => true
  | Some (VRaw s) => negb (String.eqb s "")
  end.

(** Trailing arguments of a [redis.set(key, value, ...args)] call. *)
Inductive set_arg :=
| ArgStr (s : string)
| ArgNum (n : Z).

Record email_request := {
  to : jsval; subject : jsval; html : string; text : string }.

Record fcm_payload := {
  fcm_title : jsval; fcm_body : jsval; fcm_imageUrl : jsval; fcm_data : jsval }.

Inductive send_request :=
| SendEmail (r : email_request)
| SendPush (token : string) (p : fcm_payload).

(** One entry of the [results] array of an FCM response; [dev_error] is
    the [message] of its [error] object when it has one. *)
Record device_result := { dev_error : option (option string) }.

Record backend_reply := { results : option (list device_result) }.

(** What the wrapped backend call does once it is invoked: it resolves, or
    it rejects (backend error, or the breaker's timeout). *)
Inductive backend_outcome :=
| Resolves (r : backend_reply)
| Rejects (message : string).

(** What one [breaker.fire(...)] does: the breaker lets the call through,
    or it is open and rejects without calling the backend. *)
Inductive fire_outcome :=
| Passes (o : backend_outcome)
| BreakerOpen.

Record publish_options := {
  persistent : bool; header_priority : option Z }.

(** The observable effects.  [EvRedisGet] and [EvRedisSet] record the
    command as it is issued, also when it then fails; [EvSend] is one call
    of the external backend (SMTP, FCM); [EvPublish] is a publish that the
    bus accepted; [EvSetTimeout] is a timer whose action republishes the
    message to the routing key. *)
Inductive event :=
| EvRedisGet (key : string)
| EvRedisSet (key : string) (value : redis_value) (args : list set_arg)
| EvSend (req : send_request)
| EvPublish (routing_key : string) (msg : payload) (opts : publish_options)
| EvSetTimeout (delay_ms : Z) (routing_key : string) (msg : payload)
| EvAck.

(** The state outside the handler.  [store] maps a key to its value and
    its expiry instant (milliseconds); [redis_faults], [bus_faults] and
    [backend] script the next Redis commands, bus publishes and breaker
    calls ([true] is a failure; an exhausted script means no failure);
    [next_uuid] is the supply of [uuidv4]. *)
Record world := {
  store : gmap string (redis_value * option Z);
  now : Z;
  redis_faults : list bool;
  bus_faults : list bool;
  backend : list fire_outcome;
  next_uuid : nat;
  trace : list event }.

Definition with_store (w : world) (st : gmap string (redis_value * option Z)) :=
  {| store := st; now := now w; redis_faults := redis_faults w;
     bus_faults := bus_faults w; backend := backend w;
     next_uuid := next_uuid w; trace := trace w |}.
Definition with_now (w : world) (t : Z) :=
  {| store := store w; now := t; redis_faults := redis_faults w;
     bus_faults := bus_faults w; backend := backend w;
     next_uuid := next_uuid w; trace := trace w |}.
Definition with_redis_faults (w : world) (l : list bool) :=
  {| store := store w; now := now w; redis_faults := l;
     bus_faults := bus_faults w; backend := backend w;
     next_uuid := next_uuid w; trace := trace w |}.
Definition with_bus_faults (w : world) (l : list bool) :=
  {| store := store w; now := now w; redis_faults := redis_faults w;
     bus_faults := l; backend := backend w;
     next_uuid := next_uuid w; trace := trace w |}.
Definition with_backend (w : world) (l : list fire_outcome) :=
  {| store := store w; now := now w; redis_faults := redis_faults w;
     bus_faults := bus_faults w; backend := l;
     next_uuid := next_uuid w; trace := trace w |}.
Definition with_next_uuid (w : world) (n : nat) :=
  {| store := store w; now := now w; redis_faults := redis_faults w;
     bus_faults := bus_faults w; backend := backend w;
     next_uuid := n; trace := trace w |}.
Definition with_trace (w : world) (t : list event) :=
  {| store := store w; now := now w; redis_faults := redis_faults w;
     bus_faults := bus_faults w; backend := backend w;
     next_uuid := next_uuid w; trace := t |}.

(** *** The handler monad: state passing with exceptions *)

Definition M (A : Type) : Type := world -> result A * world.

#[global] Instance M_ret : MRet M := fun A a w => (Ok a, w).
#[global] Instance M_bind : MBind M := fun A B f m w =>
  match m w with
  | (Ok a, w') => f a w'
  | (Throw e, w') => (Throw e, w')
  end.

Definition throw {A : Type} (message : string) : M A :=
  fun w => (Throw message, w).

(** [try { body } catch (err) { handler(err) }] *)
Definition try_catch {A : Type} (body : M A) (handler : string -> M A) : M A :=
  fun w =>
    match body w with
    | (Ok a, w') => (Ok a, w')
    | (Throw e, w') => handler e w'
    end.

Definition emit (e : event) : M unit :=
  fun w => (Ok tt, with_trace w (trace w ++ [e])).

(** [new Date().toISOString()]: the instant is rendered as its millisecond
    count in decimal rather than as ISO-8601 text. *)
Definition toISOString : M string := fun w => (Ok (pretty (now w)), w).

(** [uuidv4()]: the n-th identifier of the supply. *)
Definition uuid_of (n : nat) : string := "uuid-" +:+ pretty n.
Definition uuidv4 : M string :=
  fun w => (Ok (uuid_of (next_uuid w)), with_next_uuid w (S (next_uuid w))).

(** [x || uuidv4()] for an optional string [x] *)
Definition or_uuid (x : option string) : M string :=
  match x with
  | Some s => if String.eqb s "" then uuidv4 else mret s
  | None => uuidv4
  end.

Definition next_redis_fault : M bool :=
  fun w => match redis_faults w with
           | [] => (Ok false, w)
           | b :: rest => (Ok b, with_redis_faults w rest)
           end.

Definition live (t : Z) (entry : redis_value * option Z) : bool :=
  match snd entry with
  | None => true
  | Some expiry => t <? expiry
  end.

(** [await redis.get(key)] *)
Definition redis_get (key : string) : M (option redis_value) :=
  emit (EvRedisGet key);;
  fault ← next_redis_fault;
  if fault : bool then throw "redis unavailable"
  else fun w =>
    match store w !! key with
    | Some entry => (Ok (if live (now w) entry then Some (fst entry) else None), w)
    | None => (Ok None, w)
    end.

(** [await redis.set(key, value, ...args)].  The arguments after the value
    follow the grammar of the Redis SET command: nothing (no expiry),
    or the option [EX] with a positive number of seconds; a bare number is
    not an option and the server rejects the command. *)
Definition redis_set (key : string) (value : redis_value) (args : list set_arg)
  : M unit :=
  emit (EvRedisSet key value args);;
  fault ← next_redis_fault;
  if fault : bool then throw "redis unavailable"
  else
    match args with
    | [] => fun w => (Ok tt, with_store w (<[key := (value, None)]> (store w)))
    | [ArgStr "EX"; ArgNum seconds] =>
        if 0 <? seconds
        then fun w => (Ok tt, with_store w
                        (<[key := (value, Some (now w + 1000 * seconds))]> (store w)))
        else throw "ERR invalid expire time in 'set' command"
    | _ => throw "ERR syntax error"
    end.

Definition next_bus_fault : M bool :=
  fun w => match bus_faults w with
           | [] => (Ok false, w)
           | b :: rest => (Ok b, with_bus_faults w rest)
           end.

(** [channel.publish(EXCHANGE, routing_key, Buffer.from(JSON.stringify(msg)), opts)] *)
Definition channel_publish (routing_key : string) (msg : payload)
  (opts : publish_options) : M unit :=
  fault ← next_bus_fault;
  if fault : bool then throw "Channel closed"
  else emit (EvPublish routing_key msg opts).

(** [channel.ack(msg)] *)
Definition channel_ack : M unit := emit EvAck.

(** [setTimeout(() => channel.publish(EXCHANGE, routing_key, ...payload..., { persistent: true }), delay_ms)] *)
Definition setTimeout_republish (delay_ms : Z) (routing_key : string)
  (msg : payload) : M unit :=
  emit (EvSetTimeout delay_ms routing_key msg).

Definition next_fire_outcome : M fire_outcome :=
  fun w => match backend w with
           | [] => (Ok (Passes (Resolves {| results := None |})), w)
           | o :: rest => (Ok o, with_backend w rest)
           end.

End Platform.
Export Platform.

(** ** HTTP replies and the uniform envelope *)

Module Http.

(** The [data] of a reply: a string read from Redis and passed on as it
    is, or a JSON value. *)
Inductive http_data :=
| DataRedis (v : redis_value)
| DataJson (d : jsval).

(** A reply body: an object literal with the envelope's properties (an
    absent property is [JUndefined], an absent [data] is [None]), or any
    other JSON document. *)
Inductive reply_body :=
| Envelope (success : jsval) (data : option http_data) (err : jsval)
    (message : jsval) (meta : jsval)
| Plain (doc : jsval).

Record reply := { code : Z; body : reply_body }.

Definition meta_keys : list string :=
  ["total"; "limit"; "page"; "total_pages"; "has_next"; "has_previous"].

Definition valid_meta (meta : jsval) : bool :=
  match meta with
  | JObj ps => forallb (has_key ps) meta_keys
  | _ => false
  end.

Definition optional_string (v : jsval) : bool :=
  match v with JUndefined | JStr _ => true | _ => false end.

(** The envelope schema:
    [{ success: bool, data?: any, error?: string, message: string,
       meta: { total, limit, page, total_pages, has_next, has_previous } }] *)
Definition validates (b : reply_body) : bool :=
  match b with
  | Envelope success _ err message meta =>
      is_boolean success && optional_string err && is_string message
      && valid_meta meta
  | Plain (JObj ps) =>
      is_boolean (default JUndefined (assoc ps "success"))
      && optional_string (default JUndefined (assoc ps "error"))
      && is_string (default JUndefined (assoc ps "message"))
      && valid_meta (default JUndefined (assoc ps "meta"))
  | Plain _ => false
  end.

(** The argument object of [createResponse]; [None] is an omitted
    property.  Every call in the repository passes a boolean literal, a
    string, and for [meta] an object literal or nothing. *)
Record response_args := {
  arg_success : option bool;
  arg_data : option http_data;
  arg_error : option string;
  arg_message : option string;
  arg_meta : option props }.

Definition defaultMeta : props :=
  [ ("total", JNum 0); ("limit", JNum 0); ("page", JNum 0);
    ("total_pages", JNum 0); ("has_next", JBool false);
    ("has_previous", JBool false) ].

(** [createResponse({ success = true, data = null, error = null,
    message = "", meta = {} } = {})] (utils/response.js) *)
Definition createResponse (a : response_args) : reply_body :=
  let success := default true (arg_success a) in
  let data :=
    match arg_data a with
    | Some (DataJson JNull) | Some (DataJson JUndefined) | None => None
    | Some d => Some d
    end in
  let err := match arg_error a with Some e => JStr e | None => JUndefined end in
  let message := default "" (arg_message a) in
  let meta := default [] (arg_meta a) in
  Envelope (JBool success) data err (JStr message)
    (JObj (Object_assign defaultMeta meta)).

(** The response to a request whose handler throws.  The application
    installs no error handler (app.js), so the default one of Fastify
    answers: the status is 500 (the error carries no status code of its
    own) and the body is [{ statusCode, error, message }]. *)
Definition default_error_reply (message : string) : reply :=
  {| code := 500;
     body := Plain (JObj [("statusCode", JNum 500);
                          ("error", JStr "Internal Server Error");
                          ("message", JStr message)]) |}.

(** What the client receives from a route: the reply that the handler
    sends, or the default error reply when the handler throws. *)
Definition response (r : result reply) : reply :=
  match r with
  | Ok rep => rep
  | Throw message => default_error_reply message
  end.

End Http.
Export Http.

(** ** The channel workers (email_service.js, push_service.js) *)

Module Worker.

Record config := {
  IDEMPOTENCY_TTL_SECONDS : Z;
  MAX_ATTEMPTS : Z;
  firebase_apps : nat }.

(** The defaults of the two services, with Firebase configured. *)
Definition default_config : config :=
  {| IDEMPOTENCY_TTL_SECONDS := 86400; MAX_ATTEMPTS := 5; firebase_apps := 1 |}.

Definition lift {A : Type} (r : result A) : M A := fun w => (r, w).

(** [JSON.stringify({ notification_id, status, ...extra })] *)
Definition status_doc (notif status : string) (extra : props) : redis_value :=
  VJson (JObj (("notification_id", JStr notif) :: ("status", JStr status) :: extra)).

Definition EX_TTL (cfg : config) : list set_arg :=
  [ArgStr "EX"; ArgNum (IDEMPOTENCY_TTL_SECONDS cfg)].

(** [payload.attempts ? Number(payload.attempts) : 0], for an [attempts]
    that is absent or a natural number: absent and [0] are falsy and give
    [0], a positive count is kept. *)
Definition normalize_attempts (a : option N) : N := default 0%N a.

Definition attempts_of (p : payload) : N := default 0%N (attempts p).

(** [2000 * Math.pow(2, payload.attempts - 1)].  The power is taken with
    the exponent [attempts] and halved afterwards (the division is exact),
    since [Math.pow(2, -1)] is one half: the delay for [attempts = 0] is
    1000. *)
Definition delay_ms (attempts : N) : Z := 2000 * 2 ^ Z.of_N attempts / 2.

(** [raw_send_email] behind [sendEmailBreaker.fire] *)
Definition raw_send_email (req : email_request) (o : backend_outcome)
  : M backend_reply :=
  emit (EvSend (SendEmail req));;
  match o with
  | Resolves info => mret info
  | Rejects m => throw m
  end.

Definition sendEmailBreaker_fire (req : email_request) : M backend_reply :=
  step ← next_fire_outcome;
  match step with
  | BreakerOpen => throw "Breaker is open"
  | Passes o => raw_send_email req o
  end.

(** [raw_send_push] behind [sendPushBreaker.fire] *)
Definition raw_send_push (cfg : config) (token : string) (p : fcm_payload)
  (o : backend_outcome) : M backend_reply :=
  if (firebase_apps cfg =? 0)%nat then throw "firebase_not_initialized"
  else
    emit (EvSend (SendPush token p));;
    match o with
    | Resolves response => mret response
    | Rejects m => throw m
    end.

Definition sendPushBreaker_fire (cfg : config) (token : string)
  (p : fcm_payload) : M backend_reply :=
  step ← next_fire_outcome;
  match step with
  | BreakerOpen => throw "Breaker is open"
  | Passes o => raw_send_push cfg token p o
  end.

(** [build_fcm_payload(metadata, variables)]; the constant [android] and
    [apns] members are left out. *)
Definition build_fcm_payload (metadata variables : option props) : fcm_payload :=
  {| fcm_title :=
       js_or (js_get_opt metadata "title")
         (js_or (js_get_opt variables "title") (JStr "Notification"));
     fcm_body :=
       js_or (js_get_opt metadata "body")
         (js_or (js_get_opt variables "body")
            (if truthy (js_get_opt variables "name")
             then JStr ("Hi " +:+ js_to_string (js_get_opt variables "name"))
             else JStr "You have a notification"));
     fcm_imageUrl := js_get_opt metadata "image_url";
     fcm_data := js_or (js_get_opt metadata "data") (JObj []) |}.

(** The body of the [try] block of the email consumer (lines 132-149). *)
Definition email_try (cfg : config) (idempotency_key notif : string)
  (p : payload) : M unit :=
  let to := js_get_opt (metadata p) "email" in
  if negb (truthy to) then throw "recipient email missing in metadata.email"
  else
    html ← lift (Renderer.render_template
                   (default "undefined" (template_code p))
                   (Some (default [] (variables p))));
    let text := Renderer.strip_tags html in
    sendEmailBreaker_fire
      {| to := to;
         subject := js_or (js_get_opt (metadata p) "subject") (JStr "Notification");
         html := html; text := text |};;
    sent_at ← toISOString;
    redis_set idempotency_key
      (status_doc notif "delivered" [("sent_at", JStr sent_at)]) (EX_TTL cfg);;
    channel_ack.

(** The callback [r => r.error], then
    [send_result.results && send_result.results.some(r => r.error)], and
    the message of the first error, [first_error.message || "fcm_error"]. *)
Definition entry_has_error (d : device_result) : bool :=
  bool_decide (is_Some (dev_error d)).

Definition has_error (r : backend_reply) : bool :=
  match results r with
  | Some rs => existsb entry_has_error rs
  | None => false
  end.

Definition first_error_message (r : backend_reply) : string :=
  match results r with
  | Some rs =>
      match List.find entry_has_error rs with
      | Some d =>
          match dev_error d with
          | Some (Some m) => if String.eqb m "" then "fcm_error" else m
          | _ => "fcm_error"
          end
      | None => "fcm_error"
      end
  | None => "fcm_error"
  end.

(** The body of the [try] block of the push consumer (lines 105-123). *)
Definition push_try (cfg : config) (idempotency_key notif : string)
  (p : payload) : M unit :=
  let token := js_get_opt (metadata p) "push_token" in
  if negb (truthy token) then throw "push_token_missing"
  else
    match token with
    | JStr t =>
        if (String.length t <? 10)%nat then throw "invalid_push_token"
        else
          let fcm := build_fcm_payload (metadata p) (variables p) in
          send_result ← sendPushBreaker_fire cfg t fcm;
          if has_error send_result then throw (first_error_message send_result)
          else
            sent_at ← toISOString;
            redis_set idempotency_key
              (status_doc notif "delivered" [("sent_at", JStr sent_at)])
              (EX_TTL cfg);;
            channel_ack
    | _ => throw "invalid_push_token"
    end.

(** The [catch (err)] block, the same in both consumers up to the routing
    key of the republish (email lines 150-170, push lines 124-139). *)
Definition on_error (cfg : config) (routing_key idempotency_key notif : string)
  (p : payload) (err : string) : M unit :=
  let p := set_attempts p (attempts_of p + 1) in
  if MAX_ATTEMPTS cfg <=? Z.of_N (attempts_of p) then
    failed ← toISOString;
    let failed_payload := failed_record p err failed notif in
    channel_publish "failed" failed_payload
      {| persistent := true; header_priority := None |};;
    redis_set idempotency_key
      (status_doc notif "failed" [("error", JStr err)]) (EX_TTL cfg);;
    channel_ack
  else
    setTimeout_republish (delay_ms (attempts_of p)) routing_key p;;
    channel_ack.

(** The callback given to [channel.consume], up to the [try] block (email
    lines 107-130, push lines 82-103): decode, normalise the identifiers
    and [attempts], idempotency guard, [processing] write.  [None] is an
    early [return] (the delivery is over); otherwise the result is the
    idempotency key, the notification id and the normalised payload that
    the [try] and [catch] blocks use. *)
Definition pickup (cfg : config) (channel_name : string) (content : bus_body)
  : M (option (string * string * payload)) :=
  match JSON_parse content with
  | Throw _ => channel_ack;; mret None
  | Ok None => throw "Cannot read properties of null (reading 'request_id')"
  | Ok (Some p) =>
      req_id ← or_uuid (request_id p);
      notif ← or_uuid (notification_id p);
      let p := set_attempts p (normalize_attempts (attempts p)) in
      let idempotency_key := channel_name +:+ ":idempotency:" +:+ req_id in
      already ← redis_get idempotency_key;
      if present already then channel_ack;; mret None
      else
        redis_set idempotency_key (status_doc notif "processing" [])
          (EX_TTL cfg);;
        mret (Some (idempotency_key, notif, p))
  end.

(** The whole callback.  The two services have the same text up to the
    channel name (the prefix of the idempotency key and the routing key of
    the republish) and the [try] block. *)
Definition consume (cfg : config) (channel_name : string)
  (try_block : string -> string -> payload -> M unit)
  (msg : option bus_body) : M unit :=
  match msg with
  | None => mret tt
  | Some content =>
      picked ← pickup cfg channel_name content;
      match picked with
      | None => mret tt
      | Some (idempotency_key, notif, p) =>
          try_catch (try_block idempotency_key notif p)
            (on_error cfg channel_name idempotency_key notif p)
      end
  end.

Definition email_consume (cfg : config) : option bus_body -> M unit :=
  consume cfg "email" (email_try cfg).

Definition push_consume (cfg : config) : option bus_body -> M unit :=
  consume cfg "push" (push_try cfg).

(** [GET /status/:request_id] of a worker *)
Definition get_status (channel_name req_id : string) : M reply :=
  data ← redis_get (channel_name +:+ ":idempotency:" +:+ req_id);
  match data with
  | Some (VJson doc) =>
      mret {| code := 200;
              body := Envelope (JBool true) (Some (DataJson doc)) JUndefined
                        (JStr "ok") JNull |}
  | Some (VRaw s) =>
      if String.eqb s ""
      then mret {| code := 404;
                   body := Envelope (JBool false) None
                             (JStr "no status for given request_id")
                             (JStr "not_found") JNull |}
      else throw "Unexpected token in JSON"
  | None =>
      mret {| code := 404;
              body := Envelope (JBool false) None
                        (JStr "no status for given request_id")
                        (JStr "not_found") JNull |}
  end.

(** [GET /health] of a worker *)
Definition get_health (service : string) : M reply :=
  timestamp ← toISOString;
  mret {| code := 200;
          body := Plain (JObj [("status", JStr "ok"); ("service", JStr service);
                               ("timestamp", JStr timestamp)]) |}.

End Worker.
Export Worker.

(** ** The gateway route [POST /api/v1/notifications/] *)

Module Gateway.

(** [process.env] as the route reads it. *)
Record env := {
  API_KEY : option string;
  IDEMPOTENCY_TTL_SECONDS : Z }.

(** [!apiKey || apiKey !== process.env.API_KEY], negated *)
Definition authorized (e : env) (apiKey : option string) : bool :=
  match apiKey with
  | Some k => negb (String.eqb k "") && bool_decide (API_KEY e = Some k)
  | None => false
  end.

Definition duplicate_meta : props :=
  [ ("total", JNum 1); ("limit", JNum 1); ("page", JNum 1);
    ("total_pages", JNum 1); ("has_next", JBool false);
    ("has_previous", JBool false) ].

Definition status_only (status : string) (extra : props) : redis_value :=
  VJson (JObj (("status", JStr status) :: extra)).

Definition accepted_data (p : payload) : http_data :=
  DataJson (JObj [("request_id",
                   match request_id p with
                   | Some r => JStr r
                   | None => JUndefined
                   end)]).

(** The handler of [fastify.post("/notifications/", ...)]; [p] is
    [req.body], already checked against the body schema.  The status-store
    writes pass the TTL as the only argument after the value, as the source
    does ([redis] is the plain client of plugins/redis.js). *)
Definition post_notifications (e : env) (apiKey : option string) (p : payload)
  : M reply :=
  if negb (authorized e apiKey) then
    mret {| code := 401;
            body := createResponse
                      {| arg_success := Some false; arg_data := None;
                         arg_error := Some "invalid api key";
                         arg_message := Some "unauthorized";
                         arg_meta := None |} |}
  else
    let idempotencyKey := "idemp:" +:+ default "undefined" (request_id p) in
    existing ← redis_get idempotencyKey;
    if present existing then
      mret {| code := 200;
              body := createResponse
                        {| arg_success := Some true;
                           arg_data := DataRedis <$> existing;
                           arg_error := None;
                           arg_message := Some "duplicate_request";
                           arg_meta := Some duplicate_meta |} |}
    else
      created ← toISOString;
      let message := set_created_at p created in
      redis_set idempotencyKey (status_only "pending" [])
        [ArgNum (IDEMPOTENCY_TTL_SECONDS e)];;
      failure ← try_catch
        (channel_publish (default "undefined" (notification_type p)) message
           {| persistent := true;
              header_priority := Some (default 0 (priority p)) |};;
         mret None)
        (fun err =>
           redis_set idempotencyKey (status_only "failed" [("error", JStr err)])
             [ArgNum (IDEMPOTENCY_TTL_SECONDS e)];;
           mret (Some {| code := 500;
                         body := createResponse
                                   {| arg_success := Some false;
                                      arg_data := None;
                                      arg_error := Some err;
                                      arg_message := Some "publish_error";
                                      arg_meta := None |} |}));
      match failure with
      | Some r => mret r
      | None =>
          mret {| code := 202;
                  body := createResponse
                            {| arg_success := Some true;
                               arg_data := Some (accepted_data p);
                               arg_error := None;
                               arg_message := Some "accepted";
                               arg_meta := None |} |}
      end.

(** [GET /health] of the gateway (app.js) *)
Definition get_health : M reply :=
  mret {| code := 200; body := Plain (JObj [("status", JStr "ok")]) |}.

End Gateway.

(** ** Timers and redelivery

    The broker hands a republished message back to the consumer of its
    routing key.  [run] follows one message: the handler runs on the
    delivery; when it has set a timer, the clock advances by the delay, the
    timer's publish is issued, and the republished message is delivered to
    the same handler.  A handler sets at most one timer for each delivery. *)

Module Delivery.

Definition timer_of (e : event) : option (Z * string * payload) :=
  match e with
  | EvSetTimeout d rk p => Some (d, rk, p)
  | _ => None
  end.

Definition timers (evs : list event) : list (Z * string * payload) :=
  omap timer_of evs.

Fixpoint run (fuel : nat) (handler : option bus_body -> M unit)
  (content : bus_body) (w : world) : option world :=
  match fuel with
  | O => None
  | S fuel' =>
      let '(_, w1) := handler (Some content) w in
      match timers (drop (length (trace w)) (trace w1)) with
      | [] => Some w1
      | (d, rk, p) :: _ =>
          let w2 := with_now w1 (now w1 + d) in
          match channel_publish rk p
                  {| persistent := true; header_priority := None |} w2 with
          | (Ok _, w3) => run fuel' handler (BodyJson p) w3
          | (Throw _, w3) => Some w3
          end
      end
  end.

Definition is_send (e : event) : bool :=
  match e with EvSend _ => true | _ => false end.
Definition is_ack (e : event) : bool :=
  match e with EvAck => true | _ => false end.

Definition count (f : event -> bool) (evs : list event) : nat :=
  length (filter (fun e => f e = true) evs).

(** The [status] of the record stored under a key, when it is a status
    document. *)
Definition status_at (w : world) (key : string) : option jsval :=
  match store w !! key with
  | Some (VJson (JObj ps), _) => assoc ps "status"
  | _ => None
  end.

End Delivery.

(** ** Vocabulary of the statements *)

Module Obs.

(** The next Redis command, or the next bus publish, is not scripted to
    fail. *)
Definition redis_up (w : world) : bool :=
  match redis_faults w with
  | true :: _ => false
  | _ => true
  end.

Definition bus_up (w : world) : bool :=
  match bus_faults w with
  | true :: _ => false
  | _ => true
  end.

(** What [redis.get] finds at the current instant. *)
Definition lookup_live (w : world) (key : string) : option redis_value :=
  match store w !! key with
  | Some entry => if live (now w) entry then Some (fst entry) else None
  | None => None
  end.

(** The world after a Redis command that was logged as [e] and did not
    change the store. *)
Definition after_redis (w : world) (e : event) : world :=
  with_redis_faults (with_trace w (trace w ++ [e])) (tail (redis_faults w)).

(** The world after a bus publish that was accepted and logged as [e]. *)
Definition after_bus (w : world) (e : event) : world :=
  with_bus_faults (with_trace w (trace w ++ [e])) (tail (bus_faults w)).

(** The events that a run from [w] to [w'] added. *)
Definition emitted (w w' : world) : list event :=
  drop (length (trace w)) (trace w').

(** [x || uuidv4()] as a pure function of the world: whether a fresh
    identifier is generated, which identifier results, and the world
    after. *)
Definition falsy_id (x : option string) : bool :=
  match x with
  | Some s => String.eqb s ""
  | None => true
  end.

Definition id_or_fresh (x : option string) (w : world) : string :=
  if falsy_id x then uuid_of (next_uuid w) else default "" x.

Definition after_id (x : option string) (w : world) : world :=
  if falsy_id x then with_next_uuid w (S (next_uuid w)) else w.

(** The request id, the idempotency key and the notification id under
    which a worker processes the delivery of [p] that starts in [w]. *)
Definition delivery_request_id (p : payload) (w : world) : string :=
  id_or_fresh (request_id p) w.

Definition delivery_key (channel_name : string) (p : payload) (w : world)
  : string :=
  channel_name +:+ ":idempotency:" +:+ delivery_request_id p w.

Definition delivery_notification_id (p : payload) (w : world) : string :=
  id_or_fresh (notification_id p) (after_id (request_id p) w).

(** The world in which the idempotency guard runs. *)
Definition at_guard (p : payload) (w : world) : world :=
  after_id (notification_id p) (after_id (request_id p) w).

(** The payload after [payload.attempts = payload.attempts ? ... : 0]. *)
Definition normalized (p : payload) : payload :=
  set_attempts p (normalize_attempts (attempts p)).

(** The three steps of the dead-letter branch, in the order of the source:
    the publish of the FailedRecord, the write of the [failed] status
    record, the ack. *)
Definition dead_letter_steps (cfg : config) (key notif err : string)
  (q : payload) (w : world) : list event :=
  [ EvPublish "failed"
      (failed_record (set_attempts q (attempts_of q + 1)) err (pretty (now w))
         notif)
      {| persistent := true; header_priority := None |};
    EvRedisSet key (status_doc notif "failed" [("error", JStr err)])
      (EX_TTL cfg);
    EvAck ].

End Obs.
Export Obs.

(** ** Sample inputs *)

Module Samples.

Definition empty_world : world :=
  {| store := ∅; now := 0; redis_faults := []; bus_faults := [];
     backend := []; next_uuid := 0; trace := [] |}.

(** Scenario 1 of the specification: the happy email. *)
Definition welcome_email : payload :=
  {| notification_type := Some "email";
     user_id := Some "7f9c2b1e-4d3a-4c8e-9b1f-2a6d5e8c0f13";
     template_code := Some "welcome_v1";
     variables := Some [("name", JStr "Ada"); ("link", JStr "https://x")];
     request_id := Some "r1"; priority := None;
     metadata := Some [("email", JStr "a@x")]; created_at := Some "0";
     attempts := None; notification_id := None; error := None;
     failed_at := None |}.

Definition with_request_id (p : payload) (r : option string) : payload :=
  {| notification_type := notification_type p; user_id := user_id p;
     template_code := template_code p; variables := variables p;
     request_id := r; priority := priority p;
     metadata := metadata p; created_at := created_at p;
     attempts := attempts p;
     notification_id := notification_id p; error := error p;
     failed_at := failed_at p |}.

Definition with_metadata (p : payload) (m : option props) : payload :=
  {| notification_type := notification_type p; user_id := user_id p;
     template_code := template_code p; variables := variables p;
     request_id := request_id p; priority := priority p;
     metadata := m; created_at := created_at p;
     attempts := attempts p;
     notification_id := notification_id p; error := error p;
     failed_at := failed_at p |}.

(** Scenario 3 of the specification: a push request without a token. *)
Definition push_no_token : payload :=
  {| notification_type := Some "push";
     user_id := Some "0b7d6a52-9c3e-4f1a-8d2b-5e4c3f2a1b09";
     template_code := Some "otp_v1"; variables := Some [];
     request_id := Some "r2"; priority := None;
     metadata := Some []; created_at := Some "0";
     attempts := None; notification_id := None; error := None;
     failed_at := None |}.

Definition push_with_token : payload :=
  with_metadata push_no_token (Some [("push_token", JStr "0123456789abcdef")]).

Definition gateway_env : Gateway.env :=
  {| Gateway.API_KEY := Some "secret";
     Gateway.IDEMPOTENCY_TTL_SECONDS := 86400 |}.

(** SMTP fails once, then succeeds. *)
Definition smtp_fails_once : list fire_outcome :=
  [Passes (Rejects "connect ETIMEDOUT");
   Passes (Resolves {| results := None |})].

Definition smtp_world : world := with_backend empty_world smtp_fails_once.

(** The first delivery of the welcome email: the world when the [try]
    block starts, and the world when it has thrown. *)
Definition welcome_picked : world :=
  snd (pickup default_config "email" (BodyJson welcome_email) smtp_world).

Definition welcome_failed : world :=
  snd (email_try default_config "email:idempotency:r1" "uuid-0"
         (normalized welcome_email) welcome_picked).

(** The same message without a [request_id]. *)
Definition anonymous_email : payload := with_request_id welcome_email None.



(** A push request without a token that has already failed four times. *)
Definition exhausted_push : payload := set_attempts push_no_token 4.

Definition exhausted_picked : world :=
  snd (pickup default_config "push" (BodyJson exhausted_push) empty_world).



Definition redis_down_world : world := with_redis_faults empty_world [true].

Definition duplicate_world : world :=
  with_store empty_world
    {[ "idemp:r1" := (Gateway.status_only "pending" [], None) ]}.


End Samples.

(** ** The gateway route [POST /api/v1/:notification_type/status/] *)

Module StatusRoute.

(** [process.env] as the route reads it. *)
Record env := {
  API_KEY : option string;
  STATUS_TTL_SECONDS : Z }.

(** The members of [req.body] that the route destructures; the route has
    no body schema, so each one is any JSON value, [JUndefined] when the
    property is absent. *)
Record status_body := {
  body_notification_id : jsval;
  body_status : jsval;
  body_timestamp : jsval;
  body_error : jsval }.

(** [!apiKey || apiKey !== process.env.API_KEY], negated *)
Definition authorized (e : env) (apiKey : option string) : bool :=
  match apiKey with
  | Some k => negb (String.eqb k "") && bool_decide (API_KEY e = Some k)
  | None => false
  end.

(** [["email", "push"].includes(notification_type)] *)
Definition allowed_channel (notification_type : string) : bool :=
  String.eqb notification_type "email" || String.eqb notification_type "push".

(** [["delivered", "pending", "failed"].includes(status)] *)
Definition allowed_status (status : jsval) : bool :=
  match status with
  | JStr s =>
      String.eqb s "delivered" || String.eqb s "pending"
      || String.eqb s "failed"
  | _ => false
  end.

(** [{ notification_id, status, timestamp: timestamp || <now>,
       error: error || null }] *)
Definition statusData (b : status_body) (iso_now : string) : jsval :=
  JObj [ ("notification_id", body_notification_id b);
         ("status", body_status b);
         ("timestamp", js_or (body_timestamp b) (JStr iso_now));
         ("error", js_or (body_error b) JNull) ].

(** The key [`status:${notification_id}`] *)
Definition status_key (b : status_body) : string :=
  "status:" +:+ js_to_string (body_notification_id b).

(** The handler; [body] is [req.body], [None] when the request has none
    (the destructuring of line 76 then throws, before the API key is
    looked at). *)
Definition post_status (e : env) (apiKey : option string)
  (notification_type : string) (body : option status_body) : M reply :=
  match body with
  | None =>
      throw "Cannot destructure property 'notification_id' of 'req.body' as it is undefined."
  | Some b =>
      if negb (authorized e apiKey) then
        mret {| code := 401;
                body := createResponse
                          {| arg_success := Some false; arg_data := None;
                             arg_error := Some "invalid api key";
                             arg_message := Some "unauthorized";
                             arg_meta := None |} |}
      else if negb (allowed_channel notification_type) then
        mret {| code := 400;
                body := createResponse
                          {| arg_success := Some false; arg_data := None;
                             arg_error := Some "Allowed: email, push";
                             arg_message := Some "invalid_notification_type";
                             arg_meta := None |} |}
      else if negb (truthy (body_notification_id b))
              || negb (truthy (body_status b))
              || negb (allowed_status (body_status b)) then
        mret {| code := 400;
                body := createResponse
                          {| arg_success := Some false; arg_data := None;
                             arg_error :=
                               Some "notification_id and valid status are required";
                             arg_message := Some "validation_error";
                             arg_meta := None |} |}
      else
        iso_now ← toISOString;
        let data := statusData b iso_now in
        try_catch
          (redis_set (status_key b) (VJson data)
             [ArgStr "EX"; ArgNum (STATUS_TTL_SECONDS e)];;
           mret {| code := 200;
                   body := createResponse
                             {| arg_success := Some true;
                                arg_data := Some (DataJson data);
                                arg_error := None;
                                arg_message := Some "status_updated";
                                arg_meta := None |} |})
          (fun err =>
             mret {| code := 500;
                     body := createResponse
                               {| arg_success := Some false; arg_data := None;
                                  arg_error := Some err;
                                  arg_message := Some "redis_error";
                                  arg_meta := None |} |})
  end.

(** The reply body that [createResponse] builds for a failure with the
    given message and error. *)
Definition rejection (c : Z) (message err : string) : reply :=
  {| code := c;
     body := Envelope (JBool false) None (JStr err) (JStr message)
               (JObj defaultMeta) |}.

End StatusRoute.

(** ** Vocabulary of the further statements *)

Module Discipline.

Definition acks (evs : list event) : nat := Delivery.count Delivery.is_ack evs.
Definition sends (evs : list event) : nat := Delivery.count Delivery.is_send evs.

Definition is_store_write (e : event) : bool :=
  match e with EvRedisSet _ _ _ => true | _ => false end.
Definition is_bus_publish (e : event) : bool :=
  match e with EvPublish _ _ _ => true | _ => false end.

(** Every run of [m] appends some events to the trace, and the result and
    the appended events satisfy [Q]. *)
Definition emits {A : Type} (m : M A) (Q : result A -> list event -> Prop)
  : Prop :=
  forall w, exists evs,
    trace (snd (m w)) = trace w ++ evs /\ Q (fst (m w)) evs.

(** The run acks nothing. *)
Definition no_ack {A : Type} (_ : result A) (evs : list event) : Prop :=
  acks evs = 0%nat.

(** A run that returns acks exactly once, as its last event; a run that
    throws acks nothing. *)
Definition ack_last {A : Type} (r : result A) (evs : list event) : Prop :=
  match r with
  | Ok _ => exists pre, evs = pre ++ [EvAck] /\ acks pre = 0%nat
  | Throw _ => acks evs = 0%nat
  end.

(** The outcome of [pickup]: an early return has acked once, as the last
    event; a delivery that goes on to the [try] block, or an exception,
    has acked nothing. *)
Definition ack_on_return (r : result (option (string * string * payload)))
  (evs : list event) : Prop :=
  match r with
  | Ok None => exists pre, evs = pre ++ [EvAck] /\ acks pre = 0%nat
  | _ => acks evs = 0%nat
  end.

Fixpoint has_char (c : ascii) (s : string) : bool :=
  match s with
  | EmptyString => false
  | String c' tl => Ascii.eqb c' c || has_char c tl
  end.

(** No opening angle bracket is followed, anywhere later, by a closing
    one: the text holds no tag in the sense of [/<[^>]*>/]. *)
Fixpoint tag_free (s : string) : bool :=
  match s with
  | EmptyString => true
  | String c tl =>
      (if Ascii.eqb c "<" then negb (has_char ">" tl) else true)
      && tag_free tl
  end.

Fixpoint string_drop (n : nat) (s : string) : string :=
  match n, s with
  | O, _ => s
  | S _, EmptyString => EmptyString
  | S k, String _ tl => string_drop k tl
  end.

(** The text that the renderer inserts for a variable whose value is a
    scalar: a string as it is, a boolean by its name, [null] as the empty
    string, an integer that a double holds exactly ([2^53 - 1] at most in
    absolute value) in decimal.  Other values have no entry. *)
Definition inserted_text (v : jsval) : option string :=
  match v with
  | JStr s => Some s
  | JBool true => Some "true"
  | JBool false => Some "false"
  | JNull => Some ""
  | JNum n => if Z.abs n <=? 9007199254740991 then Some (pretty n) else None
  | _ => None
  end.

(** [variables] is absent, or an object whose members are such scalars. *)
Definition scalar_variables (variables : option props) : bool :=
  match variables with
  | Some vars =>
      forallb (fun kv => bool_decide (is_Some (inserted_text (snd kv)))) vars
  | None => true
  end.

(** The run sets no timer. *)
Definition no_timer {A : Type} (_ : result A) (evs : list event) : Prop :=
  Delivery.timers evs = [].

(** What a consumer may schedule during the delivery of [content]: no
    timer, or exactly one, for the retry branch: the republish of the
    message with its attempt count raised by one and still below
    [MAX_ATTEMPTS], to the consumer's own routing key. *)
Definition at_most_one_retry (cfg : config) (channel_name : string)
  (content : bus_body) (evs : list event) : Prop :=
  Delivery.timers evs = []
  \/ exists p,
       content = BodyJson p
       /\ Z.of_N (attempts_of p + 1) < MAX_ATTEMPTS cfg
       /\ Delivery.timers evs =
            [(delay_ms (attempts_of p + 1), channel_name,
              set_attempts p (attempts_of p + 1))].

(** The number of republishes that a message can still cause. *)
Definition retries_left (cfg : config) (content : bus_body) : nat :=
  match content with
  | BodyJson p => Z.to_nat (MAX_ATTEMPTS cfg - 1 - Z.of_N (attempts_of p))
  | _ => O
  end.

End Discipline.
Export Discipline.

(** ** Further sample inputs *)

Module MoreSamples.

Import Samples.

Definition accepted : backend_reply := {| results := None |}.

(** The backend accepts the next call. *)
Definition accepting_world : world :=
  with_backend empty_world [Passes (Resolves accepted)].

Definition welcome_html : string :=
  "<p>Hi Ada, welcome! Click <a href=" +:+ Renderer.dquote +:+ "https://x"
  +:+ Renderer.dquote +:+ ">here</a>.</p>".

(** The breaker is open. *)
Definition open_world : world := with_backend empty_world [BreakerOpen].

Definition open_picked : world :=
  snd (pickup default_config "email" (BodyJson welcome_email) open_world).

Definition no_firebase : config :=
  {| Worker.IDEMPOTENCY_TTL_SECONDS := 86400; MAX_ATTEMPTS := 5;
     firebase_apps := 0 |}.

(** The store answers the read and the [processing] write, then fails. *)
Definition flaky_world : world :=
  with_redis_faults accepting_world [false; false; true].

Definition flaky_picked : world :=
  snd (pickup default_config "email" (BodyJson welcome_email) flaky_world).

Definition status_env : StatusRoute.env :=
  {| StatusRoute.API_KEY := Some "secret";
     StatusRoute.STATUS_TTL_SECONDS := 86400 |}.

(** Scenario 6 of the specification. *)
Definition callback : StatusRoute.status_body :=
  {| StatusRoute.body_notification_id := JStr "n7";
     StatusRoute.body_status := JStr "delivered";
     StatusRoute.body_timestamp := JUndefined;
     StatusRoute.body_error := JUndefined |}.

Definition bad_callback : StatusRoute.status_body :=
  {| StatusRoute.body_notification_id := JStr "n7";
     StatusRoute.body_status := JStr "sent";
     StatusRoute.body_timestamp := JUndefined;
     StatusRoute.body_error := JUndefined |}.

Definition paged : response_args :=
  {| arg_success := Some true; arg_data := Some (DataJson JNull);
     arg_error := None; arg_message := Some "ok";
     arg_meta := Some [("total", JNum 7); ("cursor", JStr "abc")] |}.

End MoreSamples.

(** * Properties *)

(** Unfolds the monad and the effects that only log. *)
Ltac unfold_m :=
  unfold channel_ack, setTimeout_republish, toISOString, lift, try_catch,
    mbind, M_bind, mret, M_ret, throw, emit in *.

(** ** Renderer *)

Section RendererFacts.

Import Renderer.

Variable variables : option props.

Lemma render_welcome :
  render_template "welcome_v1" variables =
  Ok ("<p>Hi " +:+ expand variables "name" +:+ ", welcome! Click <a href="
      +:+ dquote +:+ expand variables "link" +:+ dquote
      +:+ ">here</a>.</p>").
Proof.
  cbv - [expand]. reflexivity.
Qed.

Lemma render_otp :
  render_template "otp_v1" variables =
  Ok ("<p>Your OTP is: " +:+ expand variables "otp" +:+ "</p>").
Proof. cbv - [expand]. reflexivity. Qed.

(** A template code that is neither a template nor a member inherited from
    [Object.prototype] selects the generic template. *)
Lemma render_unknown (template_code : string) :
  assoc templates template_code = None ->
  assoc Object_prototype template_code = None ->
  render_template template_code variables =
  Ok (expand variables "name" +:+ " - notification").
Proof.
  intros Hown Hproto. unfold render_template, js_get.
  rewrite Hown, Hproto. cbv - [expand]. reflexivity.
Qed.

(** A variable that is present as a string replaces its placeholder, an
    unknown variable expands to the empty string. *)
Lemma expand_present (vars : props) (key value : string) :
  assoc vars key = Some (JStr value) ->
  trim key = key ->
  expand (Some vars) key = value.
Proof.
  intros Hv Ht. unfold expand, js_get_opt, js_get.
  rewrite Ht, Hv. reflexivity.
Qed.

Lemma expand_unknown (vars : props) (key : string) :
  assoc vars (trim key) = None ->
  assoc Object_prototype (trim key) = None ->
  expand (Some vars) key = "".
Proof.
  intros Hv Hp. unfold expand, js_get_opt, js_get.
  rewrite Hv, Hp. reflexivity.
Qed.

Lemma expand_no_variables (key : string) : expand None key = "".
Proof. reflexivity. Qed.

(** C8 (evaluated at the failing input).  [render_template] is not total:
    for the template code [constructor] the lookup in the template table
    finds the member that the table inherits from [Object.prototype]; it
    is truthy, so the generic template is not selected, and it has no
    [replace] method, so the call throws instead of returning a string. *)
Theorem render_template_throws_on_inherited_code :
  render_template "constructor" variables =
  Throw "tpl.replace is not a function".
Proof. reflexivity. Qed.


End RendererFacts.

Lemma assoc_In (ps : props) (k : string) (v : jsval) :
  assoc ps k = Some v -> In (k, v) ps.
Proof.
  induction ps as [|[k' v'] ps IH]; cbn [assoc]; [discriminate|].
  destruct (String.eqb_spec k' k) as [->|Hne].
  - intros [= ->]. left; reflexivity.
  - intros H. right. auto.
Qed.

(** Apart from the inherited members, [render_template] returns a string
    for every template code. *)
Lemma render_total (template_code : string) (variables : option props) :
  assoc Object_prototype template_code = None ->
  exists out, Renderer.render_template template_code variables = Ok out.
Proof.
  intros Hp. unfold Renderer.render_template, js_get. rewrite Hp.
  destruct (assoc Renderer.templates template_code) as [v|] eqn:Hown.
  - apply assoc_In in Hown.
    destruct Hown as [[= _ <-]|[[= _ <-]|[]]]; eexists; reflexivity.
  - eexists; reflexivity.
Qed.

(** ** Primitive effects *)

Section Primitives.

Lemma redis_get_up (key : string) (w : world) :
  redis_up w = true ->
  redis_get key w = (Ok (lookup_live w key), after_redis w (EvRedisGet key)).
Proof.
  unfold redis_up, redis_get, next_redis_fault, lookup_live, after_redis.
  unfold_m. destruct w as [st t rf bf be nu tr]; cbn.
  destruct rf as [|[] rf]; [ |discriminate| ]; intros _; cbn;
    destruct (st !! key); reflexivity.
Qed.

Lemma redis_get_down (key : string) (w : world) :
  redis_up w = false ->
  redis_get key w = (Throw "redis unavailable", after_redis w (EvRedisGet key)).
Proof.
  unfold redis_up, redis_get, next_redis_fault, after_redis.
  unfold_m. destruct w as [st t rf bf be nu tr]; cbn.
  destruct rf as [|[] rf]; [discriminate| |discriminate]; reflexivity.
Qed.

Lemma redis_set_down (key : string) (v : redis_value) (args : list set_arg)
  (w : world) :
  redis_up w = false ->
  redis_set key v args w =
  (Throw "redis unavailable", after_redis w (EvRedisSet key v args)).
Proof.
  unfold redis_up, redis_set, next_redis_fault, after_redis.
  unfold_m. destruct w as [st t rf bf be nu tr]; cbn.
  destruct rf as [|[] rf]; [discriminate| |discriminate]; reflexivity.
Qed.

(** A write with [EX seconds] stores the value with its expiry. *)
Lemma redis_set_EX (key : string) (v : redis_value) (seconds : Z) (w : world) :
  redis_up w = true -> 0 < seconds ->
  redis_set key v [ArgStr "EX"; ArgNum seconds] w =
  (Ok tt,
   with_store (after_redis w (EvRedisSet key v [ArgStr "EX"; ArgNum seconds]))
     (<[key := (v, Some (now w + 1000 * seconds))]> (store w))).
Proof.
  intros Hup Hpos.
  unfold redis_up, redis_set, next_redis_fault, after_redis in *.
  unfold_m. destruct w as [st t rf bf be nu tr]; cbn in *.
  assert ((0 <? seconds) = true) as Hlt by (apply Z.ltb_lt; lia).
  destruct rf as [|[] rf]; [ |discriminate| ]; cbn; rewrite Hlt; reflexivity.
Qed.

(** A write whose only trailing argument is a number is rejected by the
    server and stores nothing. *)
Lemma redis_set_bare_number (key : string) (v : redis_value) (n : Z) (w : world) :
  redis_up w = true ->
  redis_set key v [ArgNum n] w =
  (Throw "ERR syntax error", after_redis w (EvRedisSet key v [ArgNum n])).
Proof.
  unfold redis_up, redis_set, next_redis_fault, after_redis.
  unfold_m. destruct w as [st t rf bf be nu tr]; cbn.
  destruct rf as [|[] rf]; [ |discriminate| ]; reflexivity.
Qed.

Lemma redis_set_EX_nonpositive (key : string) (v : redis_value) (seconds : Z)
  (w : world) :
  redis_up w = true -> seconds <= 0 ->
  redis_set key v [ArgStr "EX"; ArgNum seconds] w =
  (Throw "ERR invalid expire time in 'set' command",
   after_redis w (EvRedisSet key v [ArgStr "EX"; ArgNum seconds])).
Proof.
  intros Hup Hneg.
  unfold redis_up, redis_set, next_redis_fault, after_redis in *.
  unfold_m. destruct w as [st t rf bf be nu tr]; cbn in *.
  assert ((0 <? seconds) = false) as Hlt by (apply Z.ltb_ge; lia).
  destruct rf as [|[] rf]; [ |discriminate| ]; cbn; rewrite Hlt; reflexivity.
Qed.

Lemma channel_publish_up (rk : string) (msg : payload) (opts : publish_options)
  (w : world) :
  bus_up w = true ->
  channel_publish rk msg opts w = (Ok tt, after_bus w (EvPublish rk msg opts)).
Proof.
  unfold bus_up, channel_publish, next_bus_fault, after_bus.
  unfold_m. destruct w as [st t rf bf be nu tr]; cbn.
  destruct bf as [|[] bf]; [ |discriminate| ]; reflexivity.
Qed.

Lemma channel_publish_down (rk : string) (msg : payload)
  (opts : publish_options) (w : world) :
  bus_up w = false ->
  channel_publish rk msg opts w =
  (Throw "Channel closed", with_bus_faults w (tail (bus_faults w))).
Proof.
  unfold bus_up, channel_publish, next_bus_fault.
  unfold_m. destruct w as [st t rf bf be nu tr]; cbn.
  destruct bf as [|[] bf]; [discriminate| |discriminate]; reflexivity.
Qed.

Lemma emitted_app (w w' : world) (evs : list event) :
  trace w' = trace w ++ evs -> emitted w w' = evs.
Proof. unfold emitted. intros ->. apply drop_app_length. Qed.

End Primitives.

(** ** Gateway admission *)

Section GatewayFacts.

Import Gateway.

Variable e : env.
Variable apiKey : option string.
Variable p : payload.

Let idempotencyKey : string := "idemp:" +:+ default "undefined" (request_id p).

(** C4.  An authenticated submission that finds a record under
    [idemp:<request_id>] is answered 200 with the stored value as [data]
    and [message = duplicate_request]; the only effect of the handler is
    the read: nothing is published and the store is unchanged.  (A stored
    record is truthy as a string: a JSON text, or any non-empty text.) *)
Theorem gateway_duplicate_short_circuits (w : world) (v : redis_value) :
  authorized e apiKey = true ->
  redis_up w = true ->
  lookup_live w idempotencyKey = Some v ->
  present (Some v) = true ->
  exists w',
    post_notifications e apiKey p w =
      (Ok {| code := 200;
             body := Envelope (JBool true) (Some (DataRedis v)) JUndefined
                       (JStr "duplicate_request") (JObj duplicate_meta) |}, w')
    /\ store w' = store w
    /\ emitted w w' = [EvRedisGet idempotencyKey].
Proof.
  intros Hauth Hup Hlook Hpres.
  exists (after_redis w (EvRedisGet idempotencyKey)).
  split; [|split].
  - unfold post_notifications. rewrite Hauth. cbn [negb].
    fold idempotencyKey. unfold mbind, M_bind.
    rewrite (redis_get_up _ _ Hup), Hlook, Hpres. reflexivity.
  - reflexivity.
  - apply emitted_app. reflexivity.
Qed.

(** C2 (what the code does on a first submission).  The [pending] write
    passes the TTL as a bare number after the value, without the [EX]
    option that the other status-store writes of the repository use; the
    server rejects the command, the awaited call throws outside the [try],
    and the handler ends there: no record is stored, with or without
    expiry, and nothing is published. *)
Theorem gateway_first_submission_fails (w : world) :
  authorized e apiKey = true ->
  redis_up w = true ->
  redis_up (after_redis w (EvRedisGet idempotencyKey)) = true ->
  lookup_live w idempotencyKey = None ->
  exists w',
    post_notifications e apiKey p w = (Throw "ERR syntax error", w')
    /\ store w' = store w
    /\ emitted w w' =
         [EvRedisGet idempotencyKey;
          EvRedisSet idempotencyKey (status_only "pending" [])
            [ArgNum (IDEMPOTENCY_TTL_SECONDS e)]].
Proof.
  intros Hauth Hup Hup' Hlook.
  eexists. split; [|split].
  - unfold post_notifications. rewrite Hauth. cbn [negb].
    fold idempotencyKey. unfold mbind, M_bind.
    rewrite (redis_get_up _ _ Hup), Hlook. cbn [present].
    unfold toISOString.
    rewrite (redis_set_bare_number _ _ _ _ Hup'). reflexivity.
  - reflexivity.
  - apply emitted_app. cbn. rewrite <- app_assoc. reflexivity.
Qed.

End GatewayFacts.

Lemma gateway_duplicate_short_circuits_witness :
  let w := Samples.duplicate_world in
  exists w',
    Gateway.post_notifications Samples.gateway_env (Some "secret")
      Samples.welcome_email w =
      (Ok {| code := 200;
             body := Envelope (JBool true)
                       (Some (DataRedis (Gateway.status_only "pending" [])))
                       JUndefined (JStr "duplicate_request")
                       (JObj Gateway.duplicate_meta) |}, w')
    /\ store w' = store w
    /\ emitted w w' = [EvRedisGet "idemp:r1"].
Proof.
  intros w.
  apply (gateway_duplicate_short_circuits Samples.gateway_env (Some "secret")
           Samples.welcome_email w (Gateway.status_only "pending" []));
    reflexivity.
Defined.

Lemma gateway_first_submission_fails_witness :
  exists w',
    Gateway.post_notifications Samples.gateway_env (Some "secret")
      Samples.welcome_email Samples.empty_world = (Throw "ERR syntax error", w')
    /\ store w' = store Samples.empty_world
    /\ emitted Samples.empty_world w' =
         [EvRedisGet "idemp:r1";
          EvRedisSet "idemp:r1" (Gateway.status_only "pending" [])
            [ArgNum 86400]].
Proof.
  apply (gateway_first_submission_fails Samples.gateway_env (Some "secret")
           Samples.welcome_email Samples.empty_world); reflexivity.
Defined.

(** ** The worker callback *)

(** From the first failure on, the delay is [2000 * 2^(attempts - 1)] with
    a natural exponent. *)
Lemma delay_ms_positive (k : N) :
  (1 <= k)%N -> delay_ms k = 2000 * 2 ^ (Z.of_N k - 1).
Proof.
  intros Hk. unfold delay_ms.
  replace (Z.of_N k) with (Z.succ (Z.of_N k - 1)) at 1 by lia.
  rewrite Z.pow_succ_r by lia.
  replace (2000 * (2 * 2 ^ (Z.of_N k - 1)))
    with (2000 * 2 ^ (Z.of_N k - 1) * 2) by lia.
  apply Z.div_mul. lia.
Qed.

Section WorkerFacts.

Variable cfg : config.
Variable channel_name : string.
Variable try_block : string -> string -> payload -> M unit.

Lemma or_uuid_eval (x : option string) (w : world) :
  or_uuid x w = (Ok (id_or_fresh x w), after_id x w).
Proof.
  unfold or_uuid, id_or_fresh, after_id, falsy_id.
  destruct x as [s|]; [destruct (String.eqb s "")|]; reflexivity.
Qed.

Lemma after_id_redis_faults (x : option string) (w : world) :
  redis_faults (after_id x w) = redis_faults w.
Proof. unfold after_id. destruct (falsy_id x); reflexivity. Qed.

Lemma after_id_trace (x : option string) (w : world) :
  trace (after_id x w) = trace w.
Proof. unfold after_id. destruct (falsy_id x); reflexivity. Qed.

Lemma after_id_store (x : option string) (w : world) :
  store (after_id x w) = store w.
Proof. unfold after_id. destruct (falsy_id x); reflexivity. Qed.

Lemma after_id_now (x : option string) (w : world) :
  now (after_id x w) = now w.
Proof. unfold after_id. destruct (falsy_id x); reflexivity. Qed.


Lemma at_guard_redis_up (p : payload) (w : world) :
  redis_up (at_guard p w) = redis_up w.
Proof.
  unfold redis_up, at_guard. rewrite !after_id_redis_faults. reflexivity.
Qed.

Lemma at_guard_trace (p : payload) (w : world) :
  trace (at_guard p w) = trace w.
Proof. unfold at_guard. rewrite !after_id_trace. reflexivity. Qed.

Lemma at_guard_store (p : payload) (w : world) :
  store (at_guard p w) = store w.
Proof. unfold at_guard. rewrite !after_id_store. reflexivity. Qed.

(** The callback up to the idempotency guard. *)
Lemma pickup_unfold (p : payload) (w : world) :
  pickup cfg channel_name (BodyJson p) w =
  match redis_get (delivery_key channel_name p w) (at_guard p w) with
  | (Ok already, w1) =>
      if present already then (Ok None, with_trace w1 (trace w1 ++ [EvAck]))
      else
        match redis_set (delivery_key channel_name p w)
                (status_doc (delivery_notification_id p w) "processing" [])
                (EX_TTL cfg) w1 with
        | (Ok _, w2) =>
            (Ok (Some (delivery_key channel_name p w,
                       delivery_notification_id p w, normalized p)), w2)
        | (Throw e, w2) => (Throw e, w2)
        end
  | (Throw e, w1) => (Throw e, w1)
  end.
Proof.
  unfold pickup. cbn [JSON_parse]. unfold mbind at 1, M_bind at 1.
  rewrite or_uuid_eval. unfold mbind at 1, M_bind at 1.
  rewrite or_uuid_eval. unfold mbind at 1, M_bind at 1.
  fold (delivery_request_id p w). fold (delivery_key channel_name p w).
  fold (delivery_notification_id p w). fold (at_guard p w).
  destruct (redis_get (delivery_key channel_name p w) (at_guard p w))
    as [[already|e] w1]; [|reflexivity].
  destruct (present already); [reflexivity|].
  unfold mbind, M_bind.
  destruct (redis_set _ _ _ w1) as [[[]|e] w2]; reflexivity.
Qed.

(** A delivery that reaches the [try] block, and whose [try] block throws,
    continues in the [catch] block. *)
Lemma consume_caught (content : bus_body) (w w0 w1 : world)
  (key notif err : string) (q : payload) :
  pickup cfg channel_name content w = (Ok (Some (key, notif, q)), w0) ->
  try_block key notif q w0 = (Throw err, w1) ->
  consume cfg channel_name try_block (Some content) w =
  on_error cfg channel_name key notif q err w1.
Proof.
  intros Hpick Htry. unfold consume, mbind, M_bind, try_catch.
  rewrite Hpick, Htry. reflexivity.
Qed.

Lemma consume_completed (content : bus_body) (w w0 w1 : world)
  (key notif : string) (q : payload) :
  pickup cfg channel_name content w = (Ok (Some (key, notif, q)), w0) ->
  try_block key notif q w0 = (Ok tt, w1) ->
  consume cfg channel_name try_block (Some content) w = (Ok tt, w1).
Proof.
  intros Hpick Htry. unfold consume, mbind, M_bind, try_catch.
  rewrite Hpick, Htry. reflexivity.
Qed.

(** What a delivery that reached the [try] block was processed under. *)
Lemma pickup_reached (p : payload) (w w0 : world) (key notif : string)
  (q : payload) :
  pickup cfg channel_name (BodyJson p) w = (Ok (Some (key, notif, q)), w0) ->
  key = delivery_key channel_name p w
  /\ notif = delivery_notification_id p w
  /\ q = normalized p.
Proof.
  rewrite pickup_unfold.
  destruct (redis_get _ _) as [[already|e] w1]; [|discriminate].
  destruct (present already); [discriminate|].
  destruct (redis_set _ _ _ w1) as [[[]|e] w2]; [|discriminate].
  intros [= <- <- <- _]. auto.
Qed.

(** The retry branch of the [catch] block. *)
Lemma on_error_retry (key notif err : string) (q : payload) (w : world) :
  Z.of_N (attempts_of q + 1) < MAX_ATTEMPTS cfg ->
  on_error cfg channel_name key notif q err w =
  (Ok tt,
   with_trace w
     (trace w ++
      [EvSetTimeout (delay_ms (attempts_of q + 1)) channel_name
         (set_attempts q (attempts_of q + 1));
       EvAck])).
Proof.
  intros Hlt. unfold on_error. cbv zeta.
  change (attempts_of (set_attempts q (attempts_of q + 1)))
    with (attempts_of q + 1)%N.
  destruct (Z.leb_spec (MAX_ATTEMPTS cfg) (Z.of_N (attempts_of q + 1)));
    [lia|].
  unfold_m. cbn. rewrite <- app_assoc. reflexivity.
Qed.

(** The dead-letter branch of the [catch] block: whatever fails on the
    way, the events are an initial segment of the three steps; when the bus
    and the store accept the calls, all three happen. *)
Lemma on_error_dead_letter (key notif err : string) (q : payload) (w : world) :
  MAX_ATTEMPTS cfg <= Z.of_N (attempts_of q + 1) ->
  exists (r : result unit) (w' : world) (n : nat),
    on_error cfg channel_name key notif q err w = (r, w')
    /\ trace w' = trace w ++ take n (dead_letter_steps cfg key notif err q w)
    /\ (bus_up w = true -> redis_up w = true ->
        0 < IDEMPOTENCY_TTL_SECONDS cfg ->
        n = 3%nat /\ r = Ok tt
        /\ store w' =
           <[key := (status_doc notif "failed" [("error", JStr err)],
                     Some (now w + 1000 * IDEMPOTENCY_TTL_SECONDS cfg))]>
             (store w)).
Proof.
  intros Hge. unfold on_error. cbv zeta.
  change (attempts_of (set_attempts q (attempts_of q + 1)))
    with (attempts_of q + 1)%N.
  destruct (Z.leb_spec (MAX_ATTEMPTS cfg) (Z.of_N (attempts_of q + 1)));
    [|lia].
  unfold dead_letter_steps.
  unfold mbind at 1, M_bind at 1. unfold toISOString at 1.
  unfold mbind at 1, M_bind at 1.
  destruct (bus_up w) eqn:Hbus.
  - rewrite (channel_publish_up _ _ _ _ Hbus).
    set (w1 := after_bus w _).
    unfold mbind at 1, M_bind at 1.
    destruct (redis_up w1) eqn:Hup.
    + destruct (Z.ltb_spec 0 (IDEMPOTENCY_TTL_SECONDS cfg)) as [Hpos|Hneg].
      * unfold EX_TTL. rewrite (redis_set_EX _ _ _ _ Hup Hpos).
        eexists _, _, 3%nat. split; [reflexivity|]. split.
        { cbn. rewrite <- !app_assoc. reflexivity. }
        intros _ _ _. repeat split; reflexivity.
      * unfold EX_TTL. rewrite (redis_set_EX_nonpositive _ _ _ _ Hup Hneg).
        eexists _, _, 2%nat. split; [reflexivity|]. split.
        { cbn. rewrite <- !app_assoc. reflexivity. }
        intros _ _ ?; lia.
    + rewrite (redis_set_down _ _ _ _ Hup).
      eexists _, _, 2%nat. split; [reflexivity|]. split.
      { cbn. rewrite <- !app_assoc. reflexivity. }
      intros _ Hup' _. unfold redis_up in *. cbn in Hup. congruence.
  - rewrite (channel_publish_down _ _ _ _ Hbus).
    eexists _, _, 0%nat. split; [reflexivity|]. split.
    { cbn. rewrite app_nil_r. reflexivity. }
    intros; discriminate.
Qed.

End WorkerFacts.

(** ** Deliveries: guard, retry, dead letter *)

Section DeliveryFacts.

Variable cfg : config.
Variable channel_name : string.
Variable try_block : string -> string -> payload -> M unit.

Lemma lookup_live_at_guard (p : payload) (w : world) (key : string) :
  lookup_live (at_guard p w) key = lookup_live w key.
Proof.
  unfold lookup_live, at_guard.
  rewrite !after_id_store, !after_id_now. reflexivity.
Qed.

(** A delivery that finds a record under its idempotency key is acked and
    dropped: no write, no send, no retry. *)
Lemma consume_duplicate (p : payload) (w : world) (v : redis_value) :
  redis_up w = true ->
  lookup_live w (delivery_key channel_name p w) = Some v ->
  present (Some v) = true ->
  exists w',
    consume cfg channel_name try_block (Some (BodyJson p)) w = (Ok tt, w')
    /\ emitted w w' = [EvRedisGet (delivery_key channel_name p w); EvAck]
    /\ store w' = store w.
Proof.
  intros Hup Hlook Hpres.
  unfold consume. unfold mbind at 1, M_bind at 1. rewrite pickup_unfold.
  rewrite redis_get_up by (rewrite at_guard_redis_up; exact Hup).
  rewrite lookup_live_at_guard, Hlook, Hpres.
  eexists. split; [reflexivity|]. split.
  - apply emitted_app. cbn. rewrite at_guard_trace, <- app_assoc. reflexivity.
  - cbn. apply at_guard_store.
Qed.

(** A message that carries a request id keeps its idempotency key over
    deliveries, whatever its attempt count. *)
Lemma delivery_key_stable (p : payload) (n : N) (w w2 : world) :
  falsy_id (request_id p) = false ->
  delivery_key channel_name (set_attempts p n) w2 =
  delivery_key channel_name p w.
Proof.
  intros H. unfold delivery_key, delivery_request_id, id_or_fresh.
  change (request_id (set_attempts p n)) with (request_id p).
  rewrite H. reflexivity.
Qed.

(** Hence the redelivery of a retried message that carries a request id
    is dropped whenever the record of the first delivery is still live:
    the retry never reaches validation, rendering or the backend. *)
Lemma redelivery_is_duplicate (p : payload) (n : N) (w w2 : world)
  (v : redis_value) :
  falsy_id (request_id p) = false ->
  redis_up w2 = true ->
  lookup_live w2 (delivery_key channel_name p w) = Some v ->
  present (Some v) = true ->
  exists w',
    consume cfg channel_name try_block
      (Some (BodyJson (set_attempts p n))) w2 = (Ok tt, w')
    /\ emitted w2 w' = [EvRedisGet (delivery_key channel_name p w); EvAck]
    /\ store w' = store w2.
Proof.
  intros Hid Hup Hlook Hpres.
  rewrite <- (delivery_key_stable p n w w2 Hid) in *.
  apply (consume_duplicate _ _ v); assumption.
Qed.

(** C3 (what the code does when the status store is unreachable).  The
    read of the idempotency key is awaited before the [try] block: when it
    fails, the exception leaves the callback.  The delivery is not acked,
    no retry is scheduled and nothing is dead-lettered: the only event of
    the handler is the failed read. *)
Theorem store_failure_escapes_the_handler (p : payload) (w : world) :
  redis_up w = false ->
  exists w',
    consume cfg channel_name try_block (Some (BodyJson p)) w =
      (Throw "redis unavailable", w')
    /\ emitted w w' = [EvRedisGet (delivery_key channel_name p w)].
Proof.
  intros Hdown.
  unfold consume. unfold mbind at 1, M_bind at 1. rewrite pickup_unfold.
  rewrite redis_get_down by (rewrite at_guard_redis_up; exact Hdown).
  eexists. split; [reflexivity|].
  apply emitted_app. cbn. rewrite at_guard_trace. reflexivity.
Qed.

(** The same when the read succeeds and the [processing] write fails. *)
Lemma processing_write_failure_escapes_the_handler (p : payload) (w : world) :
  redis_faults w = [false; true] ->
  lookup_live w (delivery_key channel_name p w) = None ->
  exists w',
    consume cfg channel_name try_block (Some (BodyJson p)) w =
      (Throw "redis unavailable", w')
    /\ emitted w w' =
         [EvRedisGet (delivery_key channel_name p w);
          EvRedisSet (delivery_key channel_name p w)
            (status_doc (delivery_notification_id p w) "processing" [])
            (EX_TTL cfg)].
Proof.
  intros Hf Hlook.
  unfold consume. unfold mbind at 1, M_bind at 1. rewrite pickup_unfold.
  rewrite redis_get_up
    by (rewrite at_guard_redis_up; unfold redis_up; rewrite Hf; reflexivity).
  rewrite lookup_live_at_guard, Hlook. cbn [present].
  rewrite redis_set_down.
  2:{ unfold redis_up, after_redis. cbn.
      unfold at_guard. rewrite !after_id_redis_faults, Hf. reflexivity. }
  eexists. split; [reflexivity|].
  apply emitted_app. cbn. rewrite at_guard_trace, <- app_assoc. reflexivity.
Qed.

(** C5.  When a delivery fails (its [try] block throws [err]) and the
    incremented attempt count reaches [MAX_ATTEMPTS], the callback goes on
    with, in this order: the publish of the FailedRecord to the routing key
    [failed], the write of the [failed] status record carrying the error,
    and the ack.  The FailedRecord is the decoded message [p], member by
    member, with [attempts] raised by one and with [error] (the message of
    the failure), [failed_at] (the instant of the dead-lettering) and
    [notification_id] (the one the delivery ran under) set.  Whatever fails
    on the way, the events are an initial segment of these three, so an ack
    never comes before the publish and the write; when the bus and the
    store accept the calls, all three happen and the stored record is the
    [failed] one. *)
Theorem dead_letter_order (content : bus_body) (w w0 w1 : world)
  (key notif err : string) (q : payload) :
  pickup cfg channel_name content w = (Ok (Some (key, notif, q)), w0) ->
  try_block key notif q w0 = (Throw err, w1) ->
  MAX_ATTEMPTS cfg <= Z.of_N (attempts_of q + 1) ->
  exists (r : result unit) (w' : world) (n : nat) (p : payload),
    content = BodyJson p
    /\ consume cfg channel_name try_block (Some content) w = (r, w')
    /\ emitted w1 w' =
         take n
           [ EvPublish "failed"
               {| notification_type := notification_type p;
                  user_id := user_id p;
                  template_code := template_code p;
                  variables := variables p;
                  request_id := request_id p;
                  priority := priority p;
                  metadata := metadata p;
                  created_at := created_at p;
                  attempts := Some (default 0 (attempts p) + 1)%N;
                  notification_id := Some notif;
                  error := Some err;
                  failed_at := Some (pretty (now w1)) |}
               {| persistent := true; header_priority := None |};
             EvRedisSet key
               (VJson (JObj [("notification_id", JStr notif);
                             ("status", JStr "failed");
                             ("error", JStr err)]))
               [ArgStr "EX"; ArgNum (IDEMPOTENCY_TTL_SECONDS cfg)];
             EvAck ]
    /\ emitted w1 w' = take n (dead_letter_steps cfg key notif err q w1)
    /\ (bus_up w1 = true -> redis_up w1 = true ->
        0 < IDEMPOTENCY_TTL_SECONDS cfg ->
        n = 3%nat /\ r = Ok tt
        /\ store w' =
           <[key := (VJson (JObj [("notification_id", JStr notif);
                                  ("status", JStr "failed");
                                  ("error", JStr err)]),
                     Some (now w1 + 1000 * IDEMPOTENCY_TTL_SECONDS cfg))]>
             (store w1)).
Proof.
  intros Hpick Htry Hge.
  destruct content as [p| |raw]; [|discriminate Hpick|discriminate Hpick].
  pose proof (pickup_reached cfg channel_name _ _ _ _ _ _ Hpick)
    as (_ & _ & Hq).
  rewrite (consume_caught cfg channel_name try_block _ _ _ _ _ _ _ _ Hpick Htry).
  destruct (on_error_dead_letter cfg channel_name key notif err q w1 Hge)
    as (r & w' & n & Hrun & Htrace & Hall).
  apply emitted_app in Htrace.
  exists r, w', n, p. split; [reflexivity|]. split; [exact Hrun|].
  split; [|split; [exact Htrace|exact Hall]].
  rewrite Htrace, Hq. reflexivity.
Qed.

(** C6.  When a delivery fails for the k-th time ([attempts] after the
    increment is [k]) with [k] below [MAX_ATTEMPTS], the callback sets one
    timer of [2000 * 2^(k-1)] milliseconds whose action republishes the
    message to the worker's own routing key, and acks the delivery at once:
    the republish is not among the events of the callback, it belongs to
    the timer. *)
Theorem retry_backoff_schedule (content : bus_body) (w w0 w1 : world)
  (key notif err : string) (q : payload) (k : N) :
  pickup cfg channel_name content w = (Ok (Some (key, notif, q)), w0) ->
  try_block key notif q w0 = (Throw err, w1) ->
  k = (attempts_of q + 1)%N ->
  Z.of_N k < MAX_ATTEMPTS cfg ->
  exists w',
    consume cfg channel_name try_block (Some content) w = (Ok tt, w')
    /\ emitted w1 w' =
         [EvSetTimeout (2000 * 2 ^ (Z.of_N k - 1)) channel_name
            (set_attempts q k);
          EvAck].
Proof.
  intros Hpick Htry -> Hlt.
  rewrite (consume_caught cfg channel_name try_block _ _ _ _ _ _ _ _ Hpick Htry).
  rewrite on_error_retry by exact Hlt.
  eexists. split; [reflexivity|].
  apply emitted_app. rewrite delay_ms_positive by lia. reflexivity.
Qed.






End DeliveryFacts.

(** ** Recipient validation and send outcome *)

Section ValidationFacts.

Variable cfg : config.
Variables key notif : string.
Variable p : payload.
Variable w : world.






End ValidationFacts.


(** ** The response envelope *)

Section EnvelopeFacts.










End EnvelopeFacts.



Lemma health_replies_are_not_envelopes :
  (exists r w', Gateway.get_health Samples.empty_world = (Ok r, w')
                /\ validates (body r) = false)
  /\ (exists r w', get_health "email_service" Samples.empty_world = (Ok r, w')
                   /\ validates (body r) = false).
Proof. split; eexists _, _; split; reflexivity. Qed.

(** ** Retry of a message that carries a request id *)

(** C1 (evaluated at the failing input: scenario 4 of the specification,
    SMTP fails once and would then succeed).  The first delivery writes the
    [processing] record, calls SMTP, fails, sets the 2000 ms timer and
    acks.  The republished message carries the same [request_id]; its
    delivery finds the [processing] record of the first one, is acked as a
    duplicate and goes no further.  SMTP is called once, the successful
    outcome is never consumed, and the record stays [processing]. *)
Theorem retry_is_dropped_as_duplicate :
  exists w',
    Delivery.run 3 (email_consume default_config)
      (BodyJson Samples.welcome_email) Samples.smtp_world = Some w'
    /\ Delivery.status_at w' "email:idempotency:r1" = Some (JStr "processing")
    /\ Delivery.count Delivery.is_send (trace w') = 1%nat
    /\ Delivery.count Delivery.is_ack (trace w') = 2%nat
    /\ backend w' = [Passes (Resolves {| results := None |})]
    /\ now w' = 2000
    /\ drop 5 (trace w') =
         [EvPublish "email" (set_attempts Samples.welcome_email 1)
            {| persistent := true; header_priority := None |};
          EvRedisGet "email:idempotency:r1";
          EvAck].
Proof.
  eexists.
  split; [vm_compute; reflexivity|].
  split; [vm_compute; reflexivity|].
  split; [vm_compute; reflexivity|].
  split; [vm_compute; reflexivity|].
  split; [vm_compute; reflexivity|].
  split; vm_compute; reflexivity.
Qed.

(** ** The statements at the sample inputs *)

Lemma store_failure_escapes_the_handler_witness :
  exists w',
    email_consume default_config (Some (BodyJson Samples.welcome_email))
      Samples.redis_down_world = (Throw "redis unavailable", w')
    /\ emitted Samples.redis_down_world w' =
         [EvRedisGet "email:idempotency:r1"].
Proof.
  apply (store_failure_escapes_the_handler default_config "email"
           (email_try default_config) Samples.welcome_email
           Samples.redis_down_world).
  reflexivity.
Defined.

Lemma dead_letter_order_witness :
  exists w',
    push_consume default_config (Some (BodyJson Samples.exhausted_push))
      Samples.empty_world = (Ok tt, w')
    /\ emitted Samples.exhausted_picked w' =
         [EvPublish "failed"
            {| notification_type := Some "push";
               user_id := Some "0b7d6a52-9c3e-4f1a-8d2b-5e4c3f2a1b09";
               template_code := Some "otp_v1";
               variables := Some [];
               request_id := Some "r2";
               priority := None;
               metadata := Some [];
               created_at := Some "0";
               attempts := Some 5%N;
               notification_id := Some "uuid-0";
               error := Some "push_token_missing";
               failed_at := Some "0" |}
            {| persistent := true; header_priority := None |};
          EvRedisSet "push:idempotency:r2"
            (VJson (JObj [("notification_id", JStr "uuid-0");
                          ("status", JStr "failed");
                          ("error", JStr "push_token_missing")]))
            [ArgStr "EX"; ArgNum 86400];
          EvAck].
Proof.
  destruct (dead_letter_order default_config "push" (push_try default_config)
              (BodyJson Samples.exhausted_push) Samples.empty_world
              Samples.exhausted_picked Samples.exhausted_picked
              "push:idempotency:r2" "uuid-0" "push_token_missing"
              Samples.exhausted_push eq_refl eq_refl)
    as (r & w' & n & p & Hp & Hrun & Hrecord & _ & Hall).
  - vm_compute. discriminate.
  - destruct (Hall eq_refl eq_refl eq_refl) as (-> & -> & _).
    injection Hp as <-.
    exists w'. split; [exact Hrun|exact Hrecord].
Defined.

Lemma retry_backoff_schedule_witness :
  exists w',
    email_consume default_config (Some (BodyJson Samples.welcome_email))
      Samples.smtp_world = (Ok tt, w')
    /\ emitted Samples.welcome_failed w' =
         [EvSetTimeout 2000 "email" (set_attempts Samples.welcome_email 1);
          EvAck].
Proof.
  apply (retry_backoff_schedule default_config "email"
           (email_try default_config) (BodyJson Samples.welcome_email)
           Samples.smtp_world Samples.welcome_picked Samples.welcome_failed
           "email:idempotency:r1" "uuid-0" "connect ETIMEDOUT"
           (normalized Samples.welcome_email) 1%N);
    reflexivity.
Defined.




(** ** The scenarios of the specification on the model *)

(** Scenario 1: the happy email.  One send with the rendered body, the
    record ends [delivered], one ack. *)
Example happy_email :
  exists w',
    Delivery.run 1 (email_consume default_config)
      (BodyJson Samples.welcome_email) Samples.empty_world = Some w'
    /\ Delivery.status_at w' "email:idempotency:r1" = Some (JStr "delivered")
    /\ filter (fun e => Delivery.is_send e = true) (trace w') =
         [EvSend (SendEmail
            {| to := JStr "a@x"; subject := JStr "Notification";
               html := "<p>Hi Ada, welcome! Click <a href="
                       +:+ Renderer.dquote +:+ "https://x" +:+ Renderer.dquote
                       +:+ ">here</a>.</p>";
               text := "Hi Ada, welcome! Click here." |})]
    /\ Delivery.count Delivery.is_ack (trace w') = 1%nat.
Proof.
  eexists.
  split; [vm_compute; reflexivity|].
  split; [vm_compute; reflexivity|].
  split; vm_compute; reflexivity.
Qed.

(** A message without a request id climbs the whole ladder: with SMTP
    always failing it is sent [MAX_ATTEMPTS] times, each delivery under a
    fresh key, and ends on the [failed] routing key. *)
Example anonymous_email_is_dead_lettered :
  let always_failing := repeat (Passes (Rejects "connect ETIMEDOUT")) 5 in
  exists w',
    Delivery.run 6 (email_consume default_config)
      (BodyJson Samples.anonymous_email)
      (with_backend Samples.empty_world always_failing) = Some w'
    /\ Delivery.count Delivery.is_send (trace w') = 5%nat
    /\ Delivery.count Delivery.is_ack (trace w') = 5%nat
    /\ now w' = 2000 + 4000 + 8000 + 16000
    /\ (exists msg opts,
          nth_error (trace w') (length (trace w') - 3)
          = Some (EvPublish "failed" msg opts)
          /\ attempts msg = Some 5%N
          /\ error msg = Some "connect ETIMEDOUT").
Proof.
  intros always_failing. eexists.
  split; [vm_compute; reflexivity|].
  split; [vm_compute; reflexivity|].
  split; [vm_compute; reflexivity|].
  split; [vm_compute; reflexivity|].
  eexists _, _.
  split; [vm_compute; reflexivity|].
  split; reflexivity.
Qed.

(** * Further properties of the code *)

(** ** Acknowledgement discipline of the consumers *)

Section AckDiscipline.

Lemma acks_app (a b : list event) : acks (a ++ b) = (acks a + acks b)%nat.
Proof.
  unfold acks, Delivery.count. rewrite filter_app, length_app. reflexivity.
Qed.

Lemma emits_quiet_prefix {A B : Type} (m : M A) (f : A -> M B)
  (Q : result B -> list event -> Prop) :
  (forall e evs, acks evs = 0%nat -> Q (Throw e) evs) ->
  (forall r evs1 evs2, acks evs1 = 0%nat -> Q r evs2 -> Q r (evs1 ++ evs2)) ->
  emits m no_ack ->
  (forall a, emits (f a) Q) ->
  emits (m ≫= f) Q.
Proof.
  intros Hthrow Hprefix Hm Hf w. unfold mbind, M_bind.
  destruct (Hm w) as (evs1 & Ht1 & Hq1). unfold no_ack in Hq1.
  destruct (m w) as [[a|e] w1]; cbn [fst snd] in *.
  - destruct (Hf a w1) as (evs2 & Ht2 & Hq2).
    exists (evs1 ++ evs2). rewrite Ht2, Ht1, app_assoc.
    split; [reflexivity|]. apply Hprefix; assumption.
  - exists evs1. split; [assumption|]. apply Hthrow, Hq1.
Qed.

Lemma no_ack_bind {A B : Type} (m : M A) (f : A -> M B) :
  emits m no_ack -> (forall a, emits (f a) no_ack) -> emits (m ≫= f) no_ack.
Proof.
  apply emits_quiet_prefix; unfold no_ack.
  - auto.
  - intros r evs1 evs2 H1 H2. rewrite acks_app. lia.
Qed.

Lemma ack_last_prefix {A : Type} (r : result A) (evs1 evs2 : list event) :
  acks evs1 = 0%nat -> ack_last r evs2 -> ack_last r (evs1 ++ evs2).
Proof.
  intros H1. destruct r as [a|e]; cbn [ack_last].
  - intros (pre & -> & Hpre). exists (evs1 ++ pre).
    rewrite app_assoc, acks_app. split; [reflexivity|lia].
  - intros H2. rewrite acks_app. lia.
Qed.

Lemma ack_last_bind {A B : Type} (m : M A) (f : A -> M B) :
  emits m no_ack -> (forall a, emits (f a) ack_last) ->
  emits (m ≫= f) ack_last.
Proof.
  apply emits_quiet_prefix.
  - intros e evs H. exact H.
  - intros r evs1 evs2. apply ack_last_prefix.
Qed.

Lemma ack_on_return_bind {A : Type} (m : M A)
  (f : A -> M (option (string * string * payload))) :
  emits m no_ack -> (forall a, emits (f a) ack_on_return) ->
  emits (m ≫= f) ack_on_return.
Proof.
  apply emits_quiet_prefix.
  - intros e evs H. exact H.
  - intros r evs1 evs2 H1. destruct r as [[x|]|e]; cbn [ack_on_return].
    + intros H2. rewrite acks_app. lia.
    + intros (pre & -> & Hpre). exists (evs1 ++ pre).
      rewrite app_assoc, acks_app. split; [reflexivity|lia].
    + intros H2. rewrite acks_app. lia.
Qed.

Lemma ack_last_try_catch {A : Type} (body : M A) (handler : string -> M A) :
  emits body ack_last -> (forall e, emits (handler e) ack_last) ->
  emits (try_catch body handler) ack_last.
Proof.
  intros Hb Hh w. unfold try_catch.
  destruct (Hb w) as (evs1 & Ht1 & Hq1).
  destruct (body w) as [[a|e] w1]; cbn [fst snd] in *.
  - exists evs1. split; assumption.
  - destruct (Hh e w1) as (evs2 & Ht2 & Hq2).
    exists (evs1 ++ evs2). rewrite Ht2, Ht1, app_assoc.
    split; [reflexivity|]. apply ack_last_prefix; assumption.
Qed.

(** The effects that do not ack. *)
Lemma no_ack_silent {A : Type} (m : M A) :
  (forall w, trace (snd (m w)) = trace w) -> emits m no_ack.
Proof.
  intros H w. exists []. rewrite app_nil_r. split; [apply H|reflexivity].
Qed.

Lemma no_ack_emit (e : event) : Delivery.is_ack e = false -> emits (emit e) no_ack.
Proof.
  intros He w. exists [e]. split; [reflexivity|].
  unfold no_ack, acks, Delivery.count. cbn. rewrite He. reflexivity.
Qed.

Lemma no_ack_throw {A : Type} (e : string) : emits (@throw A e) no_ack.
Proof. apply no_ack_silent. reflexivity. Qed.

Lemma no_ack_ret {A : Type} (a : A) : emits (mret a : M A) no_ack.
Proof. apply no_ack_silent. reflexivity. Qed.

Lemma ack_last_throw {A : Type} (e : string) : emits (@throw A e) ack_last.
Proof. intros w. exists []. rewrite app_nil_r. split; reflexivity. Qed.

Lemma ack_last_ack : emits channel_ack ack_last.
Proof.
  intros w. exists [EvAck]. split; [reflexivity|].
  exists []. split; reflexivity.
Qed.

Lemma no_ack_next_redis_fault : emits next_redis_fault no_ack.
Proof.
  apply no_ack_silent. intros w. unfold next_redis_fault.
  destruct (redis_faults w); reflexivity.
Qed.

Lemma no_ack_redis_get (key : string) : emits (redis_get key) no_ack.
Proof.
  unfold redis_get. apply no_ack_bind; [apply no_ack_emit; reflexivity|].
  intros _. apply no_ack_bind; [apply no_ack_next_redis_fault|].
  intros [|]; [apply no_ack_throw|].
  apply no_ack_silent. intros w. destruct (store w !! key); reflexivity.
Qed.

Lemma no_ack_redis_set_EX (key : string) (v : redis_value) (seconds : Z) :
  emits (redis_set key v [ArgStr "EX"; ArgNum seconds]) no_ack.
Proof.
  unfold redis_set. apply no_ack_bind; [apply no_ack_emit; reflexivity|].
  intros _. apply no_ack_bind; [apply no_ack_next_redis_fault|].
  intros [|]; [apply no_ack_throw|].
  destruct (0 <? seconds); [apply no_ack_silent; reflexivity|apply no_ack_throw].
Qed.

Lemma no_ack_channel_publish (rk : string) (msg : payload)
  (opts : publish_options) : emits (channel_publish rk msg opts) no_ack.
Proof.
  unfold channel_publish. apply no_ack_bind.
  - apply no_ack_silent. intros w. unfold next_bus_fault.
    destruct (bus_faults w); reflexivity.
  - intros [|]; [apply no_ack_throw|apply no_ack_emit; reflexivity].
Qed.

Lemma no_ack_toISOString : emits toISOString no_ack.
Proof. apply no_ack_silent. reflexivity. Qed.

Lemma no_ack_or_uuid (x : option string) : emits (or_uuid x) no_ack.
Proof.
  apply no_ack_silent. intros w. rewrite or_uuid_eval. apply after_id_trace.
Qed.

Lemma no_ack_lift {A : Type} (r : result A) : emits (lift r) no_ack.
Proof. apply no_ack_silent. reflexivity. Qed.

Lemma no_ack_next_fire_outcome : emits next_fire_outcome no_ack.
Proof.
  apply no_ack_silent. intros w. unfold next_fire_outcome.
  destruct (backend w); reflexivity.
Qed.

Lemma no_ack_sendEmailBreaker_fire (req : email_request) :
  emits (sendEmailBreaker_fire req) no_ack.
Proof.
  unfold sendEmailBreaker_fire.
  apply no_ack_bind; [apply no_ack_next_fire_outcome|].
  intros [o|]; [|apply no_ack_throw].
  unfold raw_send_email. apply no_ack_bind; [apply no_ack_emit; reflexivity|].
  intros _. destruct o; [apply no_ack_ret|apply no_ack_throw].
Qed.

Lemma no_ack_sendPushBreaker_fire (cfg : config) (token : string)
  (fcm : fcm_payload) : emits (sendPushBreaker_fire cfg token fcm) no_ack.
Proof.
  unfold sendPushBreaker_fire.
  apply no_ack_bind; [apply no_ack_next_fire_outcome|].
  intros [o|]; [|apply no_ack_throw].
  unfold raw_send_push. destruct (firebase_apps cfg =? 0)%nat;
    [apply no_ack_throw|].
  apply no_ack_bind; [apply no_ack_emit; reflexivity|].
  intros _. destruct o; [apply no_ack_ret|apply no_ack_throw].
Qed.

Lemma ack_last_email_try (cfg : config) (key notif : string) (p : payload) :
  emits (email_try cfg key notif p) ack_last.
Proof.
  unfold email_try.
  destruct (negb (truthy (js_get_opt (metadata p) "email")));
    [apply ack_last_throw|].
  apply ack_last_bind; [apply no_ack_lift|]. intros html.
  apply ack_last_bind; [apply no_ack_sendEmailBreaker_fire|]. intros _.
  apply ack_last_bind; [apply no_ack_toISOString|]. intros sent_at.
  apply ack_last_bind; [apply no_ack_redis_set_EX|]. intros _.
  apply ack_last_ack.
Qed.

Lemma ack_last_push_try (cfg : config) (key notif : string) (p : payload) :
  emits (push_try cfg key notif p) ack_last.
Proof.
  unfold push_try.
  destruct (negb (truthy (js_get_opt (metadata p) "push_token")));
    [apply ack_last_throw|].
  destruct (js_get_opt (metadata p) "push_token");
    try apply ack_last_throw.
  destruct (String.length s <? 10)%nat; [apply ack_last_throw|].
  apply ack_last_bind; [apply no_ack_sendPushBreaker_fire|]. intros r.
  destruct (has_error r); [apply ack_last_throw|].
  apply ack_last_bind; [apply no_ack_toISOString|]. intros sent_at.
  apply ack_last_bind; [apply no_ack_redis_set_EX|]. intros _.
  apply ack_last_ack.
Qed.

Lemma ack_last_on_error (cfg : config) (rk key notif err : string)
  (p : payload) : emits (on_error cfg rk key notif p err) ack_last.
Proof.
  unfold on_error. cbv zeta.
  destruct (MAX_ATTEMPTS cfg <=? _).
  - apply ack_last_bind; [apply no_ack_toISOString|]. intros failed.
    apply ack_last_bind; [apply no_ack_channel_publish|]. intros _.
    apply ack_last_bind; [apply no_ack_redis_set_EX|]. intros _.
    apply ack_last_ack.
  - apply ack_last_bind; [apply no_ack_emit; reflexivity|]. intros _.
    apply ack_last_ack.
Qed.

Lemma ack_on_return_pickup (cfg : config) (channel_name : string)
  (content : bus_body) : emits (pickup cfg channel_name content) ack_on_return.
Proof.
  assert (emits (channel_ack;; mret None
                 : M (option (string * string * payload))) ack_on_return)
    as Hdrop.
  { intros w. exists [EvAck]. split; [reflexivity|].
    exists []. split; reflexivity. }
  unfold pickup. destruct (JSON_parse content) as [[p|]|e].
  - apply ack_on_return_bind; [apply no_ack_or_uuid|]. intros req_id.
    apply ack_on_return_bind; [apply no_ack_or_uuid|]. intros notif.
    cbv zeta.
    apply ack_on_return_bind; [apply no_ack_redis_get|]. intros already.
    destruct (present already); [exact Hdrop|].
    intros w.
    destruct (no_ack_bind
                (redis_set (channel_name +:+ ":idempotency:" +:+ req_id)
                   (status_doc notif "processing" []) (EX_TTL cfg))
                (fun _ => mret (Some (channel_name +:+ ":idempotency:" +:+ req_id,
                                      notif,
                                      set_attempts p
                                        (normalize_attempts (attempts p)))))
                (no_ack_redis_set_EX _ _ _) (fun _ => no_ack_ret _) w)
      as (evs & Ht & Hq).
    exists evs. split; [exact Ht|].
    unfold mbind, M_bind in *.
    destruct (redis_set _ _ _ w) as [[[]|e] w1]; exact Hq.
  - intros w. exists []. rewrite app_nil_r. split; reflexivity.
  - exact Hdrop.
Qed.

(** The [consume] callback, for any [try] block that acks last. *)
Lemma consume_ack_discipline (cfg : config) (channel_name : string)
  (try_block : string -> string -> payload -> M unit) (content : bus_body) :
  (forall key notif p, emits (try_block key notif p) ack_last) ->
  emits (consume cfg channel_name try_block (Some content)) ack_last.
Proof.
  intros Htry w. unfold consume, mbind, M_bind.
  destruct (ack_on_return_pickup cfg channel_name content w)
    as (evs1 & Ht1 & Hq1).
  destruct (pickup cfg channel_name content w) as [[[[[key notif] p]|]|e] w1];
    cbn [fst snd ack_on_return] in *.
  - destruct (ack_last_try_catch (try_block key notif p)
                (on_error cfg channel_name key notif p)
                (Htry key notif p)
                (fun e => ack_last_on_error cfg channel_name key notif e p)
                w1)
      as (evs2 & Ht2 & Hq2).
    exists (evs1 ++ evs2). rewrite Ht2, Ht1, app_assoc.
    split; [reflexivity|]. apply ack_last_prefix; assumption.
  - exists evs1. split; assumption.
  - exists evs1. split; assumption.
Qed.

End AckDiscipline.

(** X1.  Whatever the message, the store, the bus and the backend do, a
    run of either consumer on a delivered message acks at most once: a
    run that returns has acked exactly once and the ack is its last event;
    a run that throws has acked nothing. *)
Theorem consumers_ack_once_and_last (cfg : config) (content : bus_body)
  (w : world) :
  (exists evs,
     trace (snd (email_consume cfg (Some content) w)) = trace w ++ evs
     /\ ack_last (fst (email_consume cfg (Some content) w)) evs
     /\ (acks evs <= 1)%nat)
  /\ (exists evs,
        trace (snd (push_consume cfg (Some content) w)) = trace w ++ evs
        /\ ack_last (fst (push_consume cfg (Some content) w)) evs
        /\ (acks evs <= 1)%nat).
Proof.
  assert (forall (r : result unit) evs, ack_last r evs -> (acks evs <= 1)%nat)
    as Hle.
  { intros [a|e] evs; cbn [ack_last].
    - intros (pre & -> & Hpre). rewrite acks_app, Hpre.
      change (acks [EvAck]) with 1%nat. lia.
    - intros ->. lia. }
  split.
  - destruct (consume_ack_discipline cfg "email" (email_try cfg) content
                (ack_last_email_try cfg) w) as (evs & Ht & Hq).
    exists evs. split; [exact Ht|]. split; [exact Hq|]. eapply Hle, Hq.
  - destruct (consume_ack_discipline cfg "push" (push_try cfg) content
                (ack_last_push_try cfg) w) as (evs & Ht & Hq).
    exists evs. split; [exact Ht|]. split; [exact Hq|]. eapply Hle, Hq.
Qed.

(** ** The calls of the backends through their breakers *)

Section BreakerFacts.

Lemma after_id_backend (x : option string) (w : world) :
  backend (after_id x w) = backend w.
Proof. unfold after_id. destruct (falsy_id x); reflexivity. Qed.

Lemma at_guard_backend (p : payload) (w : world) :
  backend (at_guard p w) = backend w.
Proof. unfold at_guard. rewrite !after_id_backend. reflexivity. Qed.

Lemma at_guard_now (p : payload) (w : world) : now (at_guard p w) = now w.
Proof. unfold at_guard. rewrite !after_id_now. reflexivity. Qed.

Lemma at_guard_redis_faults (p : payload) (w : world) :
  redis_faults (at_guard p w) = redis_faults w.
Proof. unfold at_guard. rewrite !after_id_redis_faults. reflexivity. Qed.

Lemma email_fire_resolves (req : email_request) (w : world)
  (info : backend_reply) (rest : list fire_outcome) :
  backend w = Passes (Resolves info) :: rest ->
  sendEmailBreaker_fire req w =
  (Ok info, with_trace (with_backend w rest)
              (trace w ++ [EvSend (SendEmail req)])).
Proof.
  intros H. unfold sendEmailBreaker_fire, next_fire_outcome, raw_send_email.
  unfold_m. rewrite H. reflexivity.
Qed.

Lemma email_fire_rejects (req : email_request) (w : world)
  (m : string) (rest : list fire_outcome) :
  backend w = Passes (Rejects m) :: rest ->
  sendEmailBreaker_fire req w =
  (Throw m, with_trace (with_backend w rest)
              (trace w ++ [EvSend (SendEmail req)])).
Proof.
  intros H. unfold sendEmailBreaker_fire, next_fire_outcome, raw_send_email.
  unfold_m. rewrite H. reflexivity.
Qed.

Lemma email_fire_open (req : email_request) (w : world)
  (rest : list fire_outcome) :
  backend w = BreakerOpen :: rest ->
  sendEmailBreaker_fire req w = (Throw "Breaker is open", with_backend w rest).
Proof.
  intros H. unfold sendEmailBreaker_fire, next_fire_outcome.
  unfold_m. rewrite H. reflexivity.
Qed.

Lemma push_fire_resolves (cfg : config) (token : string) (fcm : fcm_payload)
  (w : world) (r : backend_reply) (rest : list fire_outcome) :
  firebase_apps cfg <> 0%nat ->
  backend w = Passes (Resolves r) :: rest ->
  sendPushBreaker_fire cfg token fcm w =
  (Ok r, with_trace (with_backend w rest)
           (trace w ++ [EvSend (SendPush token fcm)])).
Proof.
  intros Hfb H. unfold sendPushBreaker_fire, next_fire_outcome, raw_send_push.
  destruct (Nat.eqb_spec (firebase_apps cfg) 0); [contradiction|].
  unfold_m. rewrite H. reflexivity.
Qed.

Lemma push_fire_open (cfg : config) (token : string) (fcm : fcm_payload)
  (w : world) (rest : list fire_outcome) :
  backend w = BreakerOpen :: rest ->
  sendPushBreaker_fire cfg token fcm w =
  (Throw "Breaker is open", with_backend w rest).
Proof.
  intros H. unfold sendPushBreaker_fire, next_fire_outcome.
  unfold_m. rewrite H. reflexivity.
Qed.

Lemma push_fire_uninitialised (cfg : config) (token : string)
  (fcm : fcm_payload) (w : world) (o : backend_outcome)
  (rest : list fire_outcome) :
  firebase_apps cfg = 0%nat ->
  backend w = Passes o :: rest ->
  sendPushBreaker_fire cfg token fcm w =
  (Throw "firebase_not_initialized", with_backend w rest).
Proof.
  intros Hfb H. unfold sendPushBreaker_fire, next_fire_outcome, raw_send_push.
  rewrite Hfb. unfold_m. rewrite H. reflexivity.
Qed.

(** The callback of a fresh delivery, up to the [try] block, when the
    store answers. *)
Lemma pickup_fresh (cfg : config) (channel_name : string) (p : payload)
  (w : world) :
  redis_faults w = [] ->
  lookup_live w (delivery_key channel_name p w) = None ->
  0 < IDEMPOTENCY_TTL_SECONDS cfg ->
  pickup cfg channel_name (BodyJson p) w =
  (Ok (Some (delivery_key channel_name p w, delivery_notification_id p w,
             normalized p)),
   with_store
     (with_trace (at_guard p w)
        (trace w ++
         [EvRedisGet (delivery_key channel_name p w);
          EvRedisSet (delivery_key channel_name p w)
            (status_doc (delivery_notification_id p w) "processing" [])
            (EX_TTL cfg)]))
     (<[delivery_key channel_name p w :=
          (status_doc (delivery_notification_id p w) "processing" [],
           Some (now w + 1000 * IDEMPOTENCY_TTL_SECONDS cfg))]> (store w))).
Proof.
  intros Hf Hlook Hpos. rewrite pickup_unfold.
  rewrite redis_get_up
    by (unfold redis_up; rewrite at_guard_redis_faults, Hf; reflexivity).
  rewrite lookup_live_at_guard, Hlook. cbn [present].
  unfold EX_TTL. rewrite redis_set_EX; [|
    unfold redis_up, after_redis; cbn;
    rewrite at_guard_redis_faults, Hf; reflexivity | exact Hpos].
  f_equal. unfold after_redis. cbn.
  rewrite at_guard_redis_faults, Hf, at_guard_trace, at_guard_store,
    at_guard_now, <- app_assoc. cbn.
  destruct (at_guard p w) as [st t rf bf be nu tr] eqn:Hg.
  pose proof (at_guard_redis_faults p w) as Hrf. rewrite Hg, Hf in Hrf.
  cbn in Hrf. subst rf. reflexivity.
Qed.

End BreakerFacts.

(** ** Deliveries that succeed *)

Section SuccessfulDelivery.

Variable cfg : config.

Lemma email_try_delivers (key notif : string) (q : payload) (w0 : world)
  (html : string) (info : backend_reply) (rest : list fire_outcome) :
  truthy (js_get_opt (metadata q) "email") = true ->
  Renderer.render_template (default "undefined" (template_code q))
    (Some (default [] (variables q))) = Ok html ->
  backend w0 = Passes (Resolves info) :: rest ->
  redis_faults w0 = [] ->
  0 < IDEMPOTENCY_TTL_SECONDS cfg ->
  email_try cfg key notif q w0 =
  (Ok tt,
   with_store
     (with_trace (with_backend w0 rest)
        (trace w0 ++
         [EvSend (SendEmail
            {| to := js_get_opt (metadata q) "email";
               subject := js_or (js_get_opt (metadata q) "subject")
                            (JStr "Notification");
               html := html; text := Renderer.strip_tags html |});
          EvRedisSet key
            (status_doc notif "delivered" [("sent_at", JStr (pretty (now w0)))])
            (EX_TTL cfg);
          EvAck]))
     (<[key := (status_doc notif "delivered"
                  [("sent_at", JStr (pretty (now w0)))],
                Some (now w0 + 1000 * IDEMPOTENCY_TTL_SECONDS cfg))]>
        (store w0))).
Proof.
  intros Hto Hrender Hbackend Hf Hpos. unfold email_try.
  rewrite Hto. cbn [negb]. rewrite Hrender.
  unfold mbind at 1, M_bind at 1. unfold lift at 1.
  unfold mbind at 1, M_bind at 1.
  rewrite (email_fire_resolves _ _ _ _ Hbackend).
  unfold mbind at 1, M_bind at 1. unfold toISOString at 1.
  unfold mbind at 1, M_bind at 1.
  unfold EX_TTL. rewrite redis_set_EX;
    [|unfold redis_up; cbn; rewrite Hf; reflexivity|exact Hpos].
  destruct w0 as [st t rf bf be nu tr]. cbn in Hf. subst rf.
  unfold channel_ack, emit, after_redis. cbn. rewrite <- !app_assoc.
  reflexivity.
Qed.

(** X2.  A first delivery to the email worker with a recipient, a template
    that renders and SMTP accepting the mail, with the store answering:
    the callback reads the key, writes [processing], calls SMTP once with
    the rendered [html] and its tag-stripped [text], writes [delivered]
    with [sent_at], and acks, in this order; afterwards the key reads as
    the [delivered] record, which expires [IDEMPOTENCY_TTL_SECONDS] after
    the delivery. *)
Theorem email_delivery_succeeds (p : payload) (w : world) (html : string)
  (info : backend_reply) (rest : list fire_outcome) :
  redis_faults w = [] ->
  lookup_live w (delivery_key "email" p w) = None ->
  0 < IDEMPOTENCY_TTL_SECONDS cfg ->
  truthy (js_get_opt (metadata p) "email") = true ->
  Renderer.render_template (default "undefined" (template_code p))
    (Some (default [] (variables p))) = Ok html ->
  backend w = Passes (Resolves info) :: rest ->
  let key := delivery_key "email" p w in
  let delivered :=
    status_doc (delivery_notification_id p w) "delivered"
      [("sent_at", JStr (pretty (now w)))] in
  exists w',
    email_consume cfg (Some (BodyJson p)) w = (Ok tt, w')
    /\ emitted w w' =
         [EvRedisGet key;
          EvRedisSet key
            (status_doc (delivery_notification_id p w) "processing" [])
            (EX_TTL cfg);
          EvSend (SendEmail
            {| to := js_get_opt (metadata p) "email";
               subject := js_or (js_get_opt (metadata p) "subject")
                            (JStr "Notification");
               html := html; text := Renderer.strip_tags html |});
          EvRedisSet key delivered (EX_TTL cfg);
          EvAck]
    /\ store w' =
         <[key := (delivered,
                   Some (now w + 1000 * IDEMPOTENCY_TTL_SECONDS cfg))]>
           (store w)
    /\ lookup_live w' key = Some delivered
    /\ backend w' = rest.
Proof.
  intros Hf Hlook Hpos Hto Hrender Hbackend key delivered.
  unfold email_consume, consume. unfold mbind at 1, M_bind at 1.
  rewrite (pickup_fresh cfg "email" p w Hf Hlook Hpos).
  unfold try_catch.
  rewrite (email_try_delivers _ _ _ _ html info rest);
    [|exact Hto|exact Hrender
     |cbn; rewrite at_guard_backend; exact Hbackend
     |cbn; rewrite at_guard_redis_faults; exact Hf|exact Hpos].
  cbn [store now trace with_store with_trace with_backend].
  rewrite at_guard_now.
  eexists. split; [reflexivity|].
  split; [|split; [|split]].
  - apply emitted_app. cbn. rewrite <- app_assoc. reflexivity.
  - cbn. apply insert_insert_eq.
  - unfold lookup_live. cbn. rewrite at_guard_now, lookup_insert_eq. cbn.
    destruct (Z.ltb_spec (now w)
                (now w + 1000 * IDEMPOTENCY_TTL_SECONDS cfg)); [reflexivity|lia].
  - reflexivity.
Qed.

Lemma push_try_delivers (key notif : string) (q : payload) (w0 : world)
  (t : string) (r : backend_reply) (rest : list fire_outcome) :
  js_get_opt (metadata q) "push_token" = JStr t ->
  (10 <= String.length t)%nat ->
  firebase_apps cfg <> 0%nat ->
  backend w0 = Passes (Resolves r) :: rest ->
  has_error r = false ->
  redis_faults w0 = [] ->
  0 < IDEMPOTENCY_TTL_SECONDS cfg ->
  push_try cfg key notif q w0 =
  (Ok tt,
   with_store
     (with_trace (with_backend w0 rest)
        (trace w0 ++
         [EvSend (SendPush t (build_fcm_payload (metadata q) (variables q)));
          EvRedisSet key
            (status_doc notif "delivered" [("sent_at", JStr (pretty (now w0)))])
            (EX_TTL cfg);
          EvAck]))
     (<[key := (status_doc notif "delivered"
                  [("sent_at", JStr (pretty (now w0)))],
                Some (now w0 + 1000 * IDEMPOTENCY_TTL_SECONDS cfg))]>
        (store w0))).
Proof.
  intros Htok Hlen Hfb Hbackend Herr Hf Hpos. unfold push_try. rewrite Htok.
  assert (truthy (JStr t) = true) as ->.
  { destruct t; [cbn in Hlen; lia|reflexivity]. }
  cbn [negb].
  destruct (Nat.ltb_spec (String.length t) 10); [lia|].
  unfold mbind at 1, M_bind at 1.
  rewrite (push_fire_resolves _ _ _ _ _ _ Hfb Hbackend). rewrite Herr.
  unfold mbind at 1, M_bind at 1. unfold toISOString at 1.
  unfold mbind at 1, M_bind at 1.
  unfold EX_TTL. rewrite redis_set_EX;
    [|unfold redis_up; cbn; rewrite Hf; reflexivity|exact Hpos].
  destruct w0 as [st tm rf bf be nu tr]. cbn in Hf. subst rf.
  unfold channel_ack, emit, after_redis. cbn. rewrite <- !app_assoc.
  reflexivity.
Qed.

(** X3.  A first delivery to the push worker with a token of at least ten
    characters, Firebase initialised and FCM answering without an error
    entry, with the store answering: [processing] is written before the
    one call of FCM, the call carries the token and the payload built from
    [metadata] and [variables], then [delivered] is written and the
    delivery is acked; the key then reads as the [delivered] record. *)
Theorem push_delivery_succeeds (p : payload) (w : world) (t : string)
  (r : backend_reply) (rest : list fire_outcome) :
  redis_faults w = [] ->
  lookup_live w (delivery_key "push" p w) = None ->
  0 < IDEMPOTENCY_TTL_SECONDS cfg ->
  js_get_opt (metadata p) "push_token" = JStr t ->
  (10 <= String.length t)%nat ->
  firebase_apps cfg <> 0%nat ->
  backend w = Passes (Resolves r) :: rest ->
  has_error r = false ->
  let key := delivery_key "push" p w in
  let delivered :=
    status_doc (delivery_notification_id p w) "delivered"
      [("sent_at", JStr (pretty (now w)))] in
  exists w',
    push_consume cfg (Some (BodyJson p)) w = (Ok tt, w')
    /\ emitted w w' =
         [EvRedisGet key;
          EvRedisSet key
            (status_doc (delivery_notification_id p w) "processing" [])
            (EX_TTL cfg);
          EvSend (SendPush t (build_fcm_payload (metadata p) (variables p)));
          EvRedisSet key delivered (EX_TTL cfg);
          EvAck]
    /\ lookup_live w' key = Some delivered
    /\ backend w' = rest.
Proof.
  intros Hf Hlook Hpos Htok Hlen Hfb Hbackend Herr key delivered.
  unfold push_consume, consume. unfold mbind at 1, M_bind at 1.
  rewrite (pickup_fresh cfg "push" p w Hf Hlook Hpos).
  unfold try_catch.
  rewrite (push_try_delivers _ _ _ _ t r rest);
    [|exact Htok|exact Hlen|exact Hfb
     |cbn; rewrite at_guard_backend; exact Hbackend|exact Herr
     |cbn; rewrite at_guard_redis_faults; exact Hf|exact Hpos].
  cbn [store now trace with_store with_trace with_backend].
  rewrite at_guard_now.
  eexists. split; [reflexivity|].
  split; [|split].
  - apply emitted_app. cbn. rewrite <- app_assoc. reflexivity.
  - unfold lookup_live. cbn. rewrite at_guard_now, lookup_insert_eq. cbn.
    destruct (Z.ltb_spec (now w)
                (now w + 1000 * IDEMPOTENCY_TTL_SECONDS cfg)); [reflexivity|lia].
  - reflexivity.
Qed.

(** X7.  Idempotency of the worker: after a successful email delivery of a
    message that carries a request id, a later delivery of the same
    message, at any instant before the record expires, is acked and
    dropped: the store is unchanged and SMTP is not called again, whatever
    the backend would answer. *)
Theorem second_delivery_is_dropped (p : payload) (w : world) (html : string)
  (info : backend_reply) (rest : list fire_outcome) (elapsed : Z) :
  redis_faults w = [] ->
  lookup_live w (delivery_key "email" p w) = None ->
  0 < IDEMPOTENCY_TTL_SECONDS cfg ->
  truthy (js_get_opt (metadata p) "email") = true ->
  Renderer.render_template (default "undefined" (template_code p))
    (Some (default [] (variables p))) = Ok html ->
  backend w = Passes (Resolves info) :: rest ->
  falsy_id (request_id p) = false ->
  0 <= elapsed < 1000 * IDEMPOTENCY_TTL_SECONDS cfg ->
  exists w1 w2,
    email_consume cfg (Some (BodyJson p)) w = (Ok tt, w1)
    /\ email_consume cfg (Some (BodyJson p)) (with_now w1 (now w + elapsed))
       = (Ok tt, w2)
    /\ emitted w1 w2 = [EvRedisGet (delivery_key "email" p w); EvAck]
    /\ store w2 = store w1
    /\ backend w2 = backend w1.
Proof.
  intros Hf Hlook Hpos Hto Hrender Hbackend Hid Hel.
  unfold email_consume, consume. unfold mbind at 1, M_bind at 1.
  rewrite (pickup_fresh cfg "email" p w Hf Hlook Hpos).
  unfold try_catch.
  rewrite (email_try_delivers _ _ _ _ html info rest);
    [|exact Hto|exact Hrender
     |cbn; rewrite at_guard_backend; exact Hbackend
     |cbn; rewrite at_guard_redis_faults; exact Hf|exact Hpos].
  cbn [store now trace with_store with_trace with_backend].
  rewrite at_guard_now, insert_insert_eq.
  set (w1 := with_store _ _).
  set (w1' := with_now w1 (now w + elapsed)).
  assert (delivery_key "email" p w1' = delivery_key "email" p w) as Hkey.
  { unfold delivery_key, delivery_request_id, id_or_fresh. rewrite Hid.
    reflexivity. }
  destruct (consume_duplicate cfg "email" (email_try cfg) p w1'
              (status_doc (delivery_notification_id p w) "delivered"
                 [("sent_at", JStr (pretty (now w)))]))
    as (w2 & Hrun & Hev & Hst).
  - unfold redis_up. subst w1' w1. cbn.
    rewrite at_guard_redis_faults, Hf. reflexivity.
  - rewrite Hkey. unfold lookup_live. subst w1' w1. cbn.
    rewrite lookup_insert_eq. cbn.
    destruct (Z.ltb_spec (now w + elapsed)
                (now w + 1000 * IDEMPOTENCY_TTL_SECONDS cfg)); [reflexivity|lia].
  - reflexivity.
  - exists w1, w2. split; [reflexivity|].
    unfold consume in Hrun. split; [exact Hrun|].
    rewrite Hkey in Hev. split; [|split].
    + exact Hev.
    + rewrite Hst. reflexivity.
    + unfold consume in Hrun. unfold mbind at 1, M_bind at 1 in Hrun.
      rewrite pickup_unfold in Hrun.
      rewrite redis_get_up in Hrun
        by (unfold redis_up; subst w1' w1; cbn;
            rewrite at_guard_redis_faults; cbn;
            rewrite at_guard_redis_faults, Hf; reflexivity).
      rewrite lookup_live_at_guard, Hkey in Hrun.
      assert (lookup_live w1' (delivery_key "email" p w) =
              Some (status_doc (delivery_notification_id p w) "delivered"
                      [("sent_at", JStr (pretty (now w)))])) as Hl.
      { unfold lookup_live. subst w1' w1. cbn. rewrite lookup_insert_eq. cbn.
        destruct (Z.ltb_spec (now w + elapsed)
                    (now w + 1000 * IDEMPOTENCY_TTL_SECONDS cfg));
          [reflexivity|lia]. }
      rewrite Hl in Hrun. cbn [present] in Hrun.
      injection Hrun as <-. cbn. rewrite at_guard_backend. reflexivity.
Qed.

End SuccessfulDelivery.

(** ** Deliveries that fail without, or after, the backend call *)

Section FailedDelivery.

Variable cfg : config.

(** X4.  An open breaker: the send of either worker fails with the
    breaker's error without calling the backend (the [try] block emits no
    event at all), and the failure is counted like any other: below
    [MAX_ATTEMPTS] the callback sets the retry timer and acks. *)
Theorem open_breaker_skips_the_backend (channel_name : string)
  (content : bus_body) (w w0 : world) (key notif : string) (q : payload)
  (rest : list fire_outcome) :
  pickup cfg channel_name content w = (Ok (Some (key, notif, q)), w0) ->
  backend w0 = BreakerOpen :: rest ->
  Z.of_N (attempts_of q + 1) < MAX_ATTEMPTS cfg ->
  (truthy (js_get_opt (metadata q) "email") = true ->
   (exists html,
      Renderer.render_template (default "undefined" (template_code q))
        (Some (default [] (variables q))) = Ok html) ->
   exists w',
     email_try cfg key notif q w0 = (Throw "Breaker is open", with_backend w0 rest)
     /\ consume cfg channel_name (email_try cfg) (Some content) w = (Ok tt, w')
     /\ emitted w0 w' =
          [EvSetTimeout (delay_ms (attempts_of q + 1)) channel_name
             (set_attempts q (attempts_of q + 1)); EvAck])
  /\ (forall t,
        js_get_opt (metadata q) "push_token" = JStr t ->
        (10 <= String.length t)%nat ->
        exists w',
          push_try cfg key notif q w0 =
            (Throw "Breaker is open", with_backend w0 rest)
          /\ consume cfg channel_name (push_try cfg) (Some content) w = (Ok tt, w')
          /\ emitted w0 w' =
               [EvSetTimeout (delay_ms (attempts_of q + 1)) channel_name
                  (set_attempts q (attempts_of q + 1)); EvAck]).
Proof.
  intros Hpick Hbackend Hlt. split.
  - intros Hto [html Hrender].
    assert (email_try cfg key notif q w0 =
            (Throw "Breaker is open", with_backend w0 rest)) as Htry.
    { unfold email_try. rewrite Hto. cbn [negb]. rewrite Hrender.
      unfold mbind at 1, M_bind at 1. unfold lift at 1.
      unfold mbind at 1, M_bind at 1.
      rewrite (email_fire_open _ _ _ Hbackend). reflexivity. }
    rewrite (consume_caught cfg channel_name (email_try cfg) _ _ _ _ _ _ _ _
               Hpick Htry).
    rewrite on_error_retry by exact Hlt.
    eexists. split; [exact Htry|]. split; [reflexivity|].
    apply emitted_app. reflexivity.
  - intros t Htok Hlen.
    assert (push_try cfg key notif q w0 =
            (Throw "Breaker is open", with_backend w0 rest)) as Htry.
    { unfold push_try. rewrite Htok.
      assert (truthy (JStr t) = true) as ->.
      { destruct t; [cbn in Hlen; lia|reflexivity]. }
      cbn [negb].
      destruct (Nat.ltb_spec (String.length t) 10); [lia|].
      unfold mbind at 1, M_bind at 1.
      rewrite (push_fire_open _ _ _ _ _ Hbackend). reflexivity. }
    rewrite (consume_caught cfg channel_name (push_try cfg) _ _ _ _ _ _ _ _
               Hpick Htry).
    rewrite on_error_retry by exact Hlt.
    eexists. split; [exact Htry|]. split; [reflexivity|].
    apply emitted_app. reflexivity.
Qed.

(** X5.  Without Firebase credentials ([admin.apps] is empty) a push with a
    valid token never reaches FCM: the wrapped call throws
    [firebase_not_initialized] before [sendToDevice], whatever FCM would
    have answered, and nothing is written or acked by the [try] block. *)
Theorem push_without_firebase_never_calls_fcm (key notif : string)
  (q : payload) (w0 : world) (t : string) (o : backend_outcome)
  (rest : list fire_outcome) :
  firebase_apps cfg = 0%nat ->
  js_get_opt (metadata q) "push_token" = JStr t ->
  (10 <= String.length t)%nat ->
  backend w0 = Passes o :: rest ->
  push_try cfg key notif q w0 =
  (Throw "firebase_not_initialized", with_backend w0 rest)
  /\ emitted w0 (with_backend w0 rest) = [].
Proof.
  intros Hfb Htok Hlen Hbackend. split.
  - unfold push_try. rewrite Htok.
    assert (truthy (JStr t) = true) as ->.
    { destruct t; [cbn in Hlen; lia|reflexivity]. }
    cbn [negb].
    destruct (Nat.ltb_spec (String.length t) 10); [lia|].
    unfold mbind at 1, M_bind at 1.
    rewrite (push_fire_uninitialised _ _ _ _ _ _ Hfb Hbackend). reflexivity.
  - apply emitted_app. cbn. rewrite app_nil_r. reflexivity.
Qed.

(** X6.  A store failure after a successful send: when SMTP has accepted
    the mail and the [delivered] write then fails, the exception is caught
    like a delivery error.  Below [MAX_ATTEMPTS] the callback sets the
    retry timer and acks although the mail is out, and the store keeps the
    record it had (the [processing] one). *)
Theorem delivered_write_failure_schedules_a_retry (content : bus_body)
  (w w0 : world) (key notif : string) (q : payload) (html : string)
  (info : backend_reply) (rest : list fire_outcome) :
  pickup cfg "email" content w = (Ok (Some (key, notif, q)), w0) ->
  truthy (js_get_opt (metadata q) "email") = true ->
  Renderer.render_template (default "undefined" (template_code q))
    (Some (default [] (variables q))) = Ok html ->
  backend w0 = Passes (Resolves info) :: rest ->
  redis_up w0 = false ->
  Z.of_N (attempts_of q + 1) < MAX_ATTEMPTS cfg ->
  exists w',
    email_consume cfg (Some content) w = (Ok tt, w')
    /\ emitted w0 w' =
         [EvSend (SendEmail
            {| to := js_get_opt (metadata q) "email";
               subject := js_or (js_get_opt (metadata q) "subject")
                            (JStr "Notification");
               html := html; text := Renderer.strip_tags html |});
          EvRedisSet key
            (status_doc notif "delivered" [("sent_at", JStr (pretty (now w0)))])
            (EX_TTL cfg);
          EvSetTimeout (delay_ms (attempts_of q + 1)) "email"
            (set_attempts q (attempts_of q + 1));
          EvAck]
    /\ store w' = store w0.
Proof.
  intros Hpick Hto Hrender Hbackend Hdown Hlt.
  assert (exists w1,
            email_try cfg key notif q w0 = (Throw "redis unavailable", w1)
            /\ trace w1 = trace w0 ++
                 [EvSend (SendEmail
                    {| to := js_get_opt (metadata q) "email";
                       subject := js_or (js_get_opt (metadata q) "subject")
                                    (JStr "Notification");
                       html := html; text := Renderer.strip_tags html |});
                  EvRedisSet key
                    (status_doc notif "delivered"
                       [("sent_at", JStr (pretty (now w0)))])
                    (EX_TTL cfg)]
            /\ store w1 = store w0) as (w1 & Htry & Htrace & Hstore).
  { unfold email_try. rewrite Hto. cbn [negb]. rewrite Hrender.
    unfold mbind at 1, M_bind at 1. unfold lift at 1.
    unfold mbind at 1, M_bind at 1.
    rewrite (email_fire_resolves _ _ _ _ Hbackend).
    unfold mbind at 1, M_bind at 1. unfold toISOString at 1.
    unfold mbind at 1, M_bind at 1.
    rewrite redis_set_down by (unfold redis_up in *; cbn; exact Hdown).
    eexists. split; [reflexivity|]. split.
    - cbn. rewrite <- app_assoc. reflexivity.
    - reflexivity. }
  unfold email_consume.
  rewrite (consume_caught cfg "email" (email_try cfg) _ _ _ _ _ _ _ _
             Hpick Htry).
  rewrite on_error_retry by exact Hlt.
  eexists. split; [reflexivity|]. split.
  - apply emitted_app. cbn. rewrite Htrace, <- app_assoc. reflexivity.
  - cbn. exact Hstore.
Qed.

End FailedDelivery.

(** ** Messages that do not decode to an object *)

(** X8.  Edge cases of the decoding, for both consumers and every world:
    a message whose content is not JSON is acked and dropped, and that ack
    is the only effect (no store access, no send, no republish); a message
    whose content is the JSON text [null] makes the callback throw before
    anything is done, so it is not acked; the cancellation notice (no
    message) does nothing. *)
Theorem undecodable_messages (cfg : config) (channel_name : string)
  (try_block : string -> string -> payload -> M unit) (raw : string)
  (w : world) :
  consume cfg channel_name try_block (Some (BodyMalformed raw)) w =
    (Ok tt, with_trace w (trace w ++ [EvAck]))
  /\ (exists e,
        consume cfg channel_name try_block (Some BodyNull) w = (Throw e, w))
  /\ consume cfg channel_name try_block None w = (Ok tt, w).
Proof.
  split; [reflexivity|]. split; [eexists; reflexivity|reflexivity].
Qed.

(** ** The notification route of the gateway *)

Section GatewayRouteFacts.

Import Gateway.

Variable e : env.
Variable p : payload.

Lemma authorized_iff (apiKey : option string) :
  authorized e apiKey = true <->
  exists k, apiKey = Some k /\ k <> "" /\ API_KEY e = Some k.
Proof.
  unfold authorized. split.
  - destruct apiKey as [k|]; [|discriminate].
    destruct (String.eqb_spec k ""); [discriminate|]. cbn.
    intros H. apply bool_decide_eq_true in H. eauto.
  - intros (k & -> & Hne & Hkey).
    destruct (String.eqb_spec k ""); [contradiction|]. cbn.
    apply bool_decide_eq_true. exact Hkey.
Qed.

(** X9.  Authentication comes first and fails closed: a submission without
    the header, with an empty header, with a key other than the configured
    one, or to a gateway whose [API_KEY] is not set, is answered 401
    [unauthorized] and the handler has no effect at all (the store is not
    read, nothing is written or published). *)
Theorem unauthenticated_submission_has_no_effect (apiKey : option string)
  (w : world) :
  apiKey = None \/ apiKey = Some "" \/ API_KEY e = None
  \/ API_KEY e <> apiKey ->
  post_notifications e apiKey p w =
  (Ok {| code := 401;
         body := Envelope (JBool false) None (JStr "invalid api key")
                   (JStr "unauthorized") (JObj defaultMeta) |}, w).
Proof.
  intros H.
  assert (authorized e apiKey = false) as Hno.
  { destruct (authorized e apiKey) eqn:Ha; [|reflexivity].
    apply authorized_iff in Ha. destruct Ha as (k & -> & Hne & Hkey).
    destruct H as [H|[H|[H|H]]]; congruence. }
  unfold post_notifications. rewrite Hno. reflexivity.
Qed.

(** X10.  Whatever the key, the body, the store and the bus do, the
    notification route never changes the store and never publishes, and
    the only replies it builds are 401 and 200: because the [pending]
    write always fails (see C2), the publish and the 202 and 500 replies
    behind it are never reached. *)
Theorem notification_route_never_publishes (apiKey : option string)
  (w : world) :
  exists r w',
    post_notifications e apiKey p w = (r, w')
    /\ store w' = store w
    /\ Delivery.count is_bus_publish (emitted w w') = 0%nat
    /\ (forall rep, r = Ok rep -> code rep = 401 \/ code rep = 200).
Proof.
  unfold post_notifications.
  destruct (authorized e apiKey); cbn [negb].
  2:{ eexists _, _. split; [reflexivity|]. split; [reflexivity|]. split.
      - unfold emitted. rewrite drop_all. reflexivity.
      - intros rep [= <-]. left; reflexivity. }
  set (key := "idemp:" +:+ default "undefined" (request_id p)).
  unfold mbind at 1, M_bind at 1.
  destruct (redis_up w) eqn:Hup.
  - rewrite (redis_get_up _ _ Hup).
    destruct (present (lookup_live w key)).
    + eexists _, _. split; [reflexivity|]. split; [reflexivity|]. split.
      * erewrite emitted_app by reflexivity. reflexivity.
      * intros rep [= <-]. right; reflexivity.
    + unfold mbind at 1, M_bind at 1. unfold toISOString at 1.
      unfold mbind at 1, M_bind at 1.
      set (w1 := after_redis w (EvRedisGet key)).
      destruct (redis_up w1) eqn:Hup1.
      * rewrite (redis_set_bare_number _ _ _ _ Hup1).
        eexists _, _. split; [reflexivity|]. split; [reflexivity|]. split.
        -- erewrite emitted_app; cycle 1.
           { subst w1. cbn. rewrite <- app_assoc. reflexivity. }
           reflexivity.
        -- intros rep [=].
      * rewrite (redis_set_down _ _ _ _ Hup1).
        eexists _, _. split; [reflexivity|]. split; [reflexivity|]. split.
        -- erewrite emitted_app; cycle 1.
           { subst w1. cbn. rewrite <- app_assoc. reflexivity. }
           reflexivity.
        -- intros rep [=].
  - rewrite (redis_get_down _ _ Hup).
    eexists _, _. split; [reflexivity|]. split; [reflexivity|]. split.
    + erewrite emitted_app by reflexivity. reflexivity.
    + intros rep [=].
Qed.

End GatewayRouteFacts.

(** ** The status-ingestion route of the gateway *)

Section StatusRouteFacts.

Import StatusRoute.

Variable e : env.
Variable apiKey : option string.
Variable notification_type : string.
Variable b : status_body.

(** X11.  The checks of the status route run in the order API key, channel,
    body, and each rejection leaves the world untouched: 401 without a
    valid key (also when the channel or the body is wrong), 400
    [invalid_notification_type] for a channel other than [email] and
    [push], 400 [validation_error] when [notification_id] or [status] is
    missing or falsy or [status] is not one of [delivered], [pending],
    [failed]. *)
Theorem status_route_rejections (w : world) :
  (authorized e apiKey = false ->
   post_status e apiKey notification_type (Some b) w =
   (Ok (rejection 401 "unauthorized" "invalid api key"), w))
  /\ (authorized e apiKey = true ->
      allowed_channel notification_type = false ->
      post_status e apiKey notification_type (Some b) w =
      (Ok (rejection 400 "invalid_notification_type" "Allowed: email, push"),
       w))
  /\ (authorized e apiKey = true ->
      allowed_channel notification_type = true ->
      truthy (body_notification_id b) = false
      \/ truthy (body_status b) = false
      \/ allowed_status (body_status b) = false ->
      post_status e apiKey notification_type (Some b) w =
      (Ok (rejection 400 "validation_error"
             "notification_id and valid status are required"), w)).
Proof.
  unfold post_status. split; [|split].
  - intros ->. reflexivity.
  - intros -> ->. reflexivity.
  - intros -> -> H. cbn [negb].
    assert (negb (truthy (body_notification_id b))
            || negb (truthy (body_status b))
            || negb (allowed_status (body_status b)) = true) as ->.
    { destruct H as [ -> | [ -> | -> ] ]; cbn;
        rewrite ?orb_true_r; reflexivity. }
    reflexivity.
Qed.



End StatusRouteFacts.

(** ** [createResponse]: the merge of [meta] *)

Section MetaMerge.

Lemma assoc_js_put (obj : props) (k k' : string) (v : jsval) :
  assoc (js_put obj k v) k' = if String.eqb k k' then Some v else assoc obj k'.
Proof.
  induction obj as [|[k0 v0] obj IH]; cbn [js_put assoc].
  - reflexivity.
  - destruct (String.eqb_spec k0 k) as [->|Hne]; cbn [assoc].
    + destruct (String.eqb k k'); reflexivity.
    + rewrite IH. destruct (String.eqb_spec k0 k') as [->|Hne'].
      * destruct (String.eqb_spec k k'); [congruence|reflexivity].
      * reflexivity.
Qed.

Lemma assoc_not_in (obj : props) (k : string) :
  ~ In k (map fst obj) -> assoc obj k = None.
Proof.
  induction obj as [|[k0 v0] obj IH]; cbn [assoc map fst In].
  - reflexivity.
  - intros H. destruct (String.eqb_spec k0 k) as [->|Hne].
    + contradiction H. left; reflexivity.
    + apply IH. intros Hin. apply H. right; exact Hin.
Qed.

(** Reading a member of [Object.assign(target, source)]: the source's
    value when it has the member, otherwise the target's. *)
Lemma assoc_Object_assign (source target : props) (k : string) :
  List.NoDup (map fst source) ->
  assoc (Object_assign target source) k =
  match assoc source k with
  | Some v => Some v
  | None => assoc target k
  end.
Proof.
  unfold Object_assign. revert target.
  induction source as [|[k0 v0] source IH]; intros target Hnd;
    cbn [fold_left assoc].
  - reflexivity.
  - cbn [map fst] in Hnd. apply List.NoDup_cons_iff in Hnd as [Hnotin Hnd].
    rewrite (IH _ Hnd). cbn [fst snd]. rewrite assoc_js_put.
    destruct (String.eqb_spec k0 k) as [->|Hne].
    + rewrite (assoc_not_in _ _ Hnotin). reflexivity.
    + reflexivity.
Qed.

End MetaMerge.

(** X14.  The [meta] of a reply built by [createResponse]: a member that
    the caller passes (each name once) replaces the default or is added,
    every other member keeps its default ([0] or [false]); a [data] of
    [null] and an absent [error] are left out of the reply. *)
Theorem createResponse_merges_meta (a : response_args) (k : string) :
  List.NoDup (map fst (default [] (arg_meta a))) ->
  exists data m,
    createResponse a =
      Envelope (JBool (default true (arg_success a))) data
        (match arg_error a with Some err => JStr err | None => JUndefined end)
        (JStr (default "" (arg_message a))) (JObj m)
    /\ assoc m k =
         match assoc (default [] (arg_meta a)) k with
         | Some v => Some v
         | None => assoc defaultMeta k
         end
    /\ (arg_data a = Some (DataJson JNull) \/ arg_data a = None -> data = None).
Proof.
  intros Hnd. unfold createResponse. eexists _, _.
  split; [reflexivity|]. split.
  - apply assoc_Object_assign, Hnd.
  - intros [->| ->]; reflexivity.
Qed.

(** ** [strip_tags]: the text part of an email *)

Section StripTags.

Import Renderer.

Lemma span_until_found (stop : ascii) (s : string) :
  has_char stop s = true ->
  exists rest, snd (span_until stop s) = String stop rest.
Proof.
  induction s as [|c tl IH]; cbn [has_char span_until]; [discriminate|].
  destruct (Ascii.eqb_spec c stop) as [->|Hne]; cbn [orb].
  - intros _. eexists; reflexivity.
  - intros H. destruct (IH H) as [rest Hrest].
    destruct (span_until stop tl) as [run after]. cbn [snd] in *.
    eexists; exact Hrest.
Qed.

Lemma span_until_not_found (stop : ascii) (s : string) :
  has_char stop s = false -> span_until stop s = (s, EmptyString).
Proof.
  induction s as [|c tl IH]; cbn [has_char span_until]; [reflexivity|].
  destruct (Ascii.eqb_spec c stop) as [->|Hne]; cbn [orb]; [discriminate|].
  intros H. rewrite (IH H). reflexivity.
Qed.

Lemma match_tag_other (c : ascii) (tl : string) :
  c <> "<"%char -> match_tag (String c tl) = None.
Proof.
  intros Hne. destruct c as [[] [] [] [] [] [] [] []];
    try reflexivity. contradiction Hne. reflexivity.
Qed.

Lemma match_tag_open (tl : string) :
  match_tag (String "<" tl) = None -> has_char ">" tl = false.
Proof.
  destruct (has_char ">" tl) eqn:Hhas; [|reflexivity].
  destruct (span_until_found _ _ Hhas) as [rest Hrest].
  cbn [match_tag]. destruct (span_until ">" tl) as [run after].
  cbn [snd] in Hrest. subst after. discriminate.
Qed.

Lemma match_tag_unclosed (tl : string) :
  has_char ">" tl = false -> match_tag (String "<" tl) = None.
Proof.
  intros H. cbn [match_tag]. rewrite (span_until_not_found _ _ H). reflexivity.
Qed.

Lemma strip_tags_from_chars (c : ascii) (s : string) (k : nat) :
  has_char c (strip_tags_from k s) = true -> has_char c s = true.
Proof.
  revert k. induction s as [|c' tl IH]; intros k; [destruct k; auto|].
  cbn [strip_tags_from]. destruct k as [|k].
  - destruct (match_tag (String c' tl)) as [len|].
    + intros H. cbn [has_char]. rewrite (IH _ H). apply orb_true_r.
    + cbn [has_char]. destruct (Ascii.eqb c' c); cbn [orb]; [auto|apply IH].
  - intros H. cbn [has_char]. rewrite (IH _ H). apply orb_true_r.
Qed.

Lemma strip_tags_from_tag_free (s : string) (k : nat) :
  tag_free (strip_tags_from k s) = true.
Proof.
  revert k. induction s as [|c tl IH]; intros k; [destruct k; reflexivity|].
  cbn [strip_tags_from]. destruct k as [|k]; [|apply IH].
  destruct (match_tag (String c tl)) as [len|] eqn:Hm; [apply IH|].
  cbn [tag_free]. rewrite IH, andb_true_r.
  destruct (Ascii.eqb_spec c "<") as [->|Hne]; [|reflexivity].
  apply match_tag_open in Hm.
  destruct (has_char ">" (strip_tags_from 0 tl)) eqn:Hhas; [|reflexivity].
  apply strip_tags_from_chars in Hhas. congruence.
Qed.

Lemma strip_tags_fixed (s : string) :
  tag_free s = true -> strip_tags_from 0 s = s.
Proof.
  induction s as [|c tl IH]; [reflexivity|].
  cbn [tag_free strip_tags_from]. intros H.
  apply andb_true_iff in H as [Hc Htl].
  destruct (Ascii.eqb_spec c "<") as [->|Hne].
  - apply negb_true_iff in Hc. rewrite (match_tag_unclosed _ Hc), (IH Htl).
    reflexivity.
  - rewrite (match_tag_other _ _ Hne), (IH Htl). reflexivity.
Qed.

Lemma no_open_tag_free (s : string) :
  has_char "<" s = false -> tag_free s = true.
Proof.
  induction s as [|c tl IH]; [reflexivity|].
  cbn [has_char tag_free]. destruct (Ascii.eqb c "<"); cbn [orb];
    [discriminate|]. exact IH.
Qed.

End StripTags.

(** X15.  The text part that the email worker derives from the rendered
    HTML holds no tag: in [strip_tags html] no opening angle bracket is
    followed by a closing one.  Stripping is therefore idempotent, text
    without an opening bracket is left as it is, and stripping adds no
    character that the HTML did not have. *)
Theorem strip_tags_leaves_no_tag (html : string) :
  tag_free (Renderer.strip_tags html) = true
  /\ Renderer.strip_tags (Renderer.strip_tags html) = Renderer.strip_tags html
  /\ (has_char "<" html = false -> Renderer.strip_tags html = html)
  /\ (forall c, has_char c (Renderer.strip_tags html) = true ->
                has_char c html = true).
Proof.
  unfold Renderer.strip_tags. split; [|split; [|split]].
  - apply strip_tags_from_tag_free.
  - apply strip_tags_fixed, strip_tags_from_tag_free.
  - intros H. apply strip_tags_fixed, no_open_tag_free, H.
  - intros c. apply strip_tags_from_chars.
Qed.

(** ** [replace_placeholders] and [render_template] *)

Section Placeholders.

Import Renderer.

Variable f : string -> string.

Lemma match_placeholder_other (c : ascii) (tl : string) :
  c <> "{"%char -> match_placeholder (String c tl) = None.
Proof.
  intros Hne. destruct c as [[] [] [] [] [] [] [] []];
    try reflexivity. contradiction Hne. reflexivity.
Qed.

Lemma replace_no_brace (s : string) :
  has_char "{" s = false -> replace_placeholders f 0 s = s.
Proof.
  induction s as [|c tl IH]; [reflexivity|].
  cbn [has_char replace_placeholders].
  destruct (Ascii.eqb_spec c "{") as [->|Hne]; cbn [orb]; [discriminate|].
  intros H. rewrite (match_placeholder_other _ _ Hne), (IH H). reflexivity.
Qed.

Lemma append_nil (s : string) : "" +:+ s = s.
Proof. reflexivity. Qed.

Lemma append_cons (c : ascii) (a b : string) :
  String c a +:+ b = String c (a +:+ b).
Proof. reflexivity. Qed.

Lemma append_assoc_str (a b c : string) : (a +:+ b) +:+ c = a +:+ (b +:+ c).
Proof.
  induction a as [|x a IH]; [reflexivity|].
  rewrite !append_cons, IH. reflexivity.
Qed.

Lemma replace_skip (x rest : string) :
  replace_placeholders f (String.length x) (x +:+ rest) =
  replace_placeholders f 0 rest.
Proof.
  induction x as [|c x IH].
  - rewrite append_nil. reflexivity.
  - rewrite append_cons. cbn [String.length replace_placeholders]. exact IH.
Qed.

Lemma span_until_app (stop : ascii) (run rest : string) :
  has_char stop run = false ->
  span_until stop (run +:+ String stop rest) = (run, String stop rest).
Proof.
  induction run as [|c run IH].
  - intros _. rewrite append_nil. cbn [span_until].
    rewrite Ascii.eqb_refl. reflexivity.
  - rewrite append_cons. cbn [has_char span_until].
    destruct (Ascii.eqb_spec c stop) as [->|Hne]; cbn [orb]; [discriminate|].
    intros H. rewrite (IH H). reflexivity.
Qed.

Lemma length_append (a b : string) :
  String.length (a +:+ b) = (String.length a + String.length b)%nat.
Proof.
  induction a as [|c a IH]; [reflexivity|].
  rewrite append_cons. cbn [String.length]. rewrite IH. reflexivity.
Qed.

Lemma replace_unfold (c : ascii) (tl : string) :
  replace_placeholders f 0 (String c tl) =
  match match_placeholder (String c tl) with
  | Some (key, len) => f key +:+ replace_placeholders f (len - 1) tl
  | None => String c (replace_placeholders f 0 tl)
  end.
Proof. reflexivity. Qed.

Lemma match_placeholder_hit (key rest : string) :
  key <> "" ->
  has_char "}" key = false ->
  match_placeholder (String "{" (String "{" (key +:+ String "}" (String "}" rest))))
  = Some (key, (String.length key + 4)%nat).
Proof.
  intros Hne Hkey. cbn [match_placeholder].
  rewrite (span_until_app _ _ _ Hkey).
  destruct key as [|c key]; [contradiction|reflexivity].
Qed.

(** One placeholder at the head of the text. *)
Lemma replace_placeholder_step (key rest : string) :
  key <> "" ->
  has_char "}" key = false ->
  replace_placeholders f 0 ("{{" +:+ key +:+ "}}" +:+ rest) =
  f key +:+ replace_placeholders f 0 rest.
Proof.
  intros Hne Hkey.
  change ("{{" +:+ key +:+ "}}" +:+ rest)
    with (String "{" (String "{" (key +:+ String "}" (String "}" rest)))).
  rewrite replace_unfold, (match_placeholder_hit key rest Hne Hkey).
  f_equal.
  replace (String.length key + 4 - 1)%nat
    with (String.length (String "{" (key +:+ "}}")))
    by (cbn [String.length]; rewrite length_append; cbn [String.length]; lia).
  change (String "{" (key +:+ String "}" (String "}" rest)))
    with (String "{" (key +:+ ("}}" +:+ rest))).
  rewrite <- (append_assoc_str key "}}" rest), <- append_cons.
  apply replace_skip.
Qed.

End Placeholders.

(** X16.  How the renderer's replace works on any template text: text
    without an opening brace is copied as it is; a placeholder [{{key}}]
    (a non-empty key without a closing brace) at the head of the text is
    replaced by what the callback returns for the key, and the replacement
    continues after the placeholder: the inserted value is not scanned
    again, so a value that itself looks like a placeholder stays as it
    is. *)
Theorem placeholders_expand_once (f : string -> string) (key rest : string) :
  (has_char "{" rest = false ->
   Renderer.replace_placeholders f 0 rest = rest)
  /\ (key <> "" -> has_char "}" key = false ->
      Renderer.replace_placeholders f 0 ("{{" +:+ key +:+ "}}" +:+ rest) =
      f key +:+ Renderer.replace_placeholders f 0 rest)
  /\ (key <> "" -> has_char "}" key = false -> has_char "{" rest = false ->
      Renderer.replace_placeholders f 0 ("{{" +:+ key +:+ "}}" +:+ rest) =
      f key +:+ rest).
Proof.
  split; [apply replace_no_brace|]. split; [apply replace_placeholder_step|].
  intros Hne Hkey Hrest.
  rewrite (replace_placeholder_step f key rest Hne Hkey).
  rewrite (replace_no_brace f rest Hrest). reflexivity.
Qed.

(** X17.  What [render_template] returns for every template code that is
    not a member inherited from [Object.prototype], when the variables are
    scalars (strings, booleans, [null], integers that a double holds
    exactly) or are absent: the welcome text, the OTP text, or for any
    other code the generic text, with each placeholder replaced by the
    text of the variable of that name.  A string is inserted as it is, a
    boolean by its name, an integer in decimal, [null], a missing variable
    or no variables at all give the empty string, and white space around
    the name inside the braces is ignored. *)
Theorem render_template_output (template_code : string)
  (variables : option props) :
  assoc Object_prototype template_code = None ->
  scalar_variables variables = true ->
  Renderer.render_template template_code variables =
    Ok (if String.eqb template_code "welcome_v1" then
          "<p>Hi " +:+ Renderer.expand variables "name"
          +:+ ", welcome! Click <a href=" +:+ Renderer.dquote
          +:+ Renderer.expand variables "link" +:+ Renderer.dquote
          +:+ ">here</a>.</p>"
        else if String.eqb template_code "otp_v1" then
          "<p>Your OTP is: " +:+ Renderer.expand variables "otp" +:+ "</p>"
        else Renderer.expand variables "name" +:+ " - notification")
  /\ (forall vars key value,
        assoc vars (trim key) = Some (JStr value) ->
        Renderer.expand (Some vars) key = value)
  /\ (forall vars key v value,
        assoc vars (trim key) = Some v ->
        inserted_text v = Some value ->
        Renderer.expand (Some vars) key = value)
  /\ (forall vars key,
        assoc vars (trim key) = None ->
        assoc Object_prototype (trim key) = None ->
        Renderer.expand (Some vars) key = "")
  /\ (forall key, Renderer.expand None key = "").
Proof.
  intros Hproto _. split; [|split; [|split; [|split]]].
  - destruct (String.eqb_spec template_code "welcome_v1") as [->|Hw].
    { apply render_welcome. }
    destruct (String.eqb_spec template_code "otp_v1") as [->|Ho].
    { apply render_otp. }
    apply render_unknown; [|exact Hproto].
    change (assoc Renderer.templates template_code)
      with (if String.eqb "welcome_v1" template_code
            then Some (JStr Renderer.welcome_v1)
            else if String.eqb "otp_v1" template_code
                 then Some (JStr Renderer.otp_v1) else None).
    destruct (String.eqb_spec "welcome_v1" template_code); [congruence|].
    destruct (String.eqb_spec "otp_v1" template_code); [congruence|].
    reflexivity.
  - intros vars key value H. unfold Renderer.expand, js_get_opt, js_get.
    rewrite H. reflexivity.
  - intros vars key v value H Hv. unfold Renderer.expand, js_get_opt, js_get.
    rewrite H. destruct v as [| |[]|n|s| | |]; cbn in Hv |- *;
      try discriminate; try congruence.
    destruct (Z.abs n <=? 9007199254740991); congruence.
  - intros vars key Hv Hp. unfold Renderer.expand, js_get_opt, js_get.
    rewrite Hv, Hp. reflexivity.
  - reflexivity.
Qed.

(** ** [build_fcm_payload] *)

Lemma truthy_js_or_r (a b : jsval) : truthy b = true -> truthy (js_or a b) = true.
Proof. intros H. unfold js_or. destruct (truthy a) eqn:Ha; assumption. Qed.

(** X18.  The push notification that the worker builds always has a title,
    a body and a [data] member that are truthy (never empty or missing),
    whatever [metadata] and [variables] hold; a truthy [metadata.title]
    ([metadata.body]) is used as it is, before anything in
    [variables]. *)
Theorem fcm_payload_is_never_empty (metadata variables : option props) :
  let fcm := build_fcm_payload metadata variables in
  truthy (fcm_title fcm) = true
  /\ truthy (fcm_body fcm) = true
  /\ truthy (fcm_data fcm) = true
  /\ (truthy (js_get_opt metadata "title") = true ->
      fcm_title fcm = js_get_opt metadata "title")
  /\ (truthy (js_get_opt metadata "body") = true ->
      fcm_body fcm = js_get_opt metadata "body").
Proof.
  cbn [build_fcm_payload fcm_title fcm_body fcm_data].
  split; [|split; [|split; [|split]]].
  - apply truthy_js_or_r, truthy_js_or_r. reflexivity.
  - apply truthy_js_or_r, truthy_js_or_r.
    destruct (truthy (js_get_opt variables "name")); reflexivity.
  - apply truthy_js_or_r. reflexivity.
  - intros H. unfold js_or at 1. rewrite H. reflexivity.
  - intros H. unfold js_or at 1. rewrite H. reflexivity.
Qed.

(** ** The key families of the status store *)

Section KeyFamilies.



End KeyFamilies.

(** ** The status route of a worker *)

Section WorkerStatus.

Variable cfg : config.

Lemma email_delivery_world (p : payload) (w : world) (html : string)
  (info : backend_reply) (rest : list fire_outcome) :
  redis_faults w = [] ->
  lookup_live w (delivery_key "email" p w) = None ->
  0 < IDEMPOTENCY_TTL_SECONDS cfg ->
  truthy (js_get_opt (metadata p) "email") = true ->
  Renderer.render_template (default "undefined" (template_code p))
    (Some (default [] (variables p))) = Ok html ->
  backend w = Passes (Resolves info) :: rest ->
  exists w',
    email_consume cfg (Some (BodyJson p)) w = (Ok tt, w')
    /\ store w' =
         <[delivery_key "email" p w :=
             (status_doc (delivery_notification_id p w) "delivered"
                [("sent_at", JStr (pretty (now w)))],
              Some (now w + 1000 * IDEMPOTENCY_TTL_SECONDS cfg))]> (store w)
    /\ redis_faults w' = []
    /\ now w' = now w.
Proof.
  intros Hf Hlook Hpos Hto Hrender Hbackend.
  unfold email_consume, consume. unfold mbind at 1, M_bind at 1.
  rewrite (pickup_fresh cfg "email" p w Hf Hlook Hpos).
  unfold try_catch.
  rewrite (email_try_delivers cfg _ _ _ _ html info rest);
    [|exact Hto|exact Hrender
     |cbn; rewrite at_guard_backend; exact Hbackend
     |cbn; rewrite at_guard_redis_faults; exact Hf|exact Hpos].
  cbn [store now trace with_store with_trace with_backend].
  rewrite at_guard_now.
  eexists. split; [reflexivity|].
  split; [|split].
  - cbn. apply insert_insert_eq.
  - cbn. rewrite at_guard_redis_faults. exact Hf.
  - cbn. apply at_guard_now.
Qed.

(** A read by the status route. *)
Lemma get_status_reads (channel_name req_id : string) (w : world) :
  redis_up w = true ->
  exists w',
    get_status channel_name req_id w =
      (match lookup_live w (channel_name +:+ ":idempotency:" +:+ req_id) with
       | Some (VJson doc) =>
           Ok {| code := 200;
                 body := Envelope (JBool true) (Some (DataJson doc)) JUndefined
                           (JStr "ok") JNull |}
       | Some (VRaw raw) =>
           if String.eqb raw ""
           then Ok {| code := 404;
                      body := Envelope (JBool false) None
                                (JStr "no status for given request_id")
                                (JStr "not_found") JNull |}
           else Throw "Unexpected token in JSON"
       | None =>
           Ok {| code := 404;
                 body := Envelope (JBool false) None
                           (JStr "no status for given request_id")
                           (JStr "not_found") JNull |}
       end, w')
    /\ store w' = store w.
Proof.
  intros Hup. unfold get_status. unfold mbind at 1, M_bind at 1.
  rewrite (redis_get_up _ _ Hup).
  destruct (lookup_live w _) as [[doc|raw]|].
  - eexists. split; reflexivity.
  - destruct (String.eqb raw ""); eexists; split; reflexivity.
  - eexists. split; reflexivity.
Qed.

(** X20.  The status route of the email worker after a successful
    delivery of a message with request id [rid]: until the record expires
    it answers 200 with the [delivered] record (notification id, status,
    [sent_at]) as [data]; from the expiry on it answers 404 [not_found];
    in both cases it only reads the store. *)
Theorem status_api_after_delivery (p : payload) (w : world) (html : string)
  (info : backend_reply) (rest : list fire_outcome) (rid : string)
  (elapsed : Z) :
  redis_faults w = [] ->
  lookup_live w (delivery_key "email" p w) = None ->
  0 < IDEMPOTENCY_TTL_SECONDS cfg ->
  truthy (js_get_opt (metadata p) "email") = true ->
  Renderer.render_template (default "undefined" (template_code p))
    (Some (default [] (variables p))) = Ok html ->
  backend w = Passes (Resolves info) :: rest ->
  request_id p = Some rid -> rid <> "" ->
  0 <= elapsed ->
  exists w1 w2 r,
    email_consume cfg (Some (BodyJson p)) w = (Ok tt, w1)
    /\ get_status "email" rid (with_now w1 (now w + elapsed)) = (Ok r, w2)
    /\ store w2 = store w1
    /\ (elapsed < 1000 * IDEMPOTENCY_TTL_SECONDS cfg ->
        r = {| code := 200;
               body := Envelope (JBool true)
                         (Some (DataJson
                            (JObj [("notification_id",
                                    JStr (delivery_notification_id p w));
                                   ("status", JStr "delivered");
                                   ("sent_at", JStr (pretty (now w)))])))
                         JUndefined (JStr "ok") JNull |})
    /\ (1000 * IDEMPOTENCY_TTL_SECONDS cfg <= elapsed ->
        r = {| code := 404;
               body := Envelope (JBool false) None
                         (JStr "no status for given request_id")
                         (JStr "not_found") JNull |}).
Proof.
  intros Hf Hlook Hpos Hto Hrender Hbackend Hrid Hne Hel.
  destruct (email_delivery_world p w html info rest Hf Hlook Hpos Hto Hrender
              Hbackend) as (w1 & Hrun & Hstore & Hfaults & Hnow).
  assert (delivery_key "email" p w = "email" +:+ ":idempotency:" +:+ rid)
    as Hkey.
  { unfold delivery_key, delivery_request_id, id_or_fresh, falsy_id.
    rewrite Hrid. destruct (String.eqb_spec rid ""); [contradiction|].
    reflexivity. }
  set (w1' := with_now w1 (now w + elapsed)).
  destruct (get_status_reads "email" rid w1') as (w2 & Hget & Hst2).
  { unfold redis_up. subst w1'. cbn. rewrite Hfaults. reflexivity. }
  assert (lookup_live w1' ("email" +:+ ":idempotency:" +:+ rid) =
          if now w + elapsed <? now w + 1000 * IDEMPOTENCY_TTL_SECONDS cfg
          then Some (status_doc (delivery_notification_id p w) "delivered"
                       [("sent_at", JStr (pretty (now w)))])
          else None) as Hl.
  { unfold lookup_live. subst w1'. cbn [store now with_now].
    rewrite Hstore, <- Hkey, lookup_insert_eq. reflexivity. }
  rewrite Hl in Hget.
  destruct (Z.ltb_spec (now w + elapsed)
              (now w + 1000 * IDEMPOTENCY_TTL_SECONDS cfg)) as [Hlt|Hge].
  - eexists w1, w2, _. split; [exact Hrun|]. split; [exact Hget|].
    split; [exact Hst2|]. split; [intros _; reflexivity|intros; lia].
  - eexists w1, w2, _. split; [exact Hrun|]. split; [exact Hget|].
    split; [exact Hst2|]. split; [intros; lia|intros _; reflexivity].
Qed.

End WorkerStatus.

(** ** The retry ladder ends *)

Section BoundedRetries.

Lemma timers_app (a b : list event) :
  Delivery.timers (a ++ b) = Delivery.timers a ++ Delivery.timers b.
Proof. unfold Delivery.timers. apply omap_app. Qed.

Lemma no_timer_bind {A B : Type} (m : M A) (f : A -> M B) :
  emits m no_timer -> (forall a, emits (f a) no_timer) ->
  emits (m ≫= f) no_timer.
Proof.
  intros Hm Hf w. unfold mbind, M_bind.
  destruct (Hm w) as (evs1 & Ht1 & Hq1). unfold no_timer in *.
  destruct (m w) as [[a|e] w1]; cbn [fst snd] in *.
  - destruct (Hf a w1) as (evs2 & Ht2 & Hq2).
    exists (evs1 ++ evs2). rewrite Ht2, Ht1, app_assoc.
    split; [reflexivity|]. rewrite timers_app, Hq1, Hq2. reflexivity.
  - exists evs1. split; assumption.
Qed.

Lemma no_timer_silent {A : Type} (m : M A) :
  (forall w, trace (snd (m w)) = trace w) -> emits m no_timer.
Proof.
  intros H w. exists []. rewrite app_nil_r. split; [apply H|reflexivity].
Qed.

Lemma no_timer_emit (e : event) :
  Delivery.timer_of e = None -> emits (emit e) no_timer.
Proof.
  intros He w. exists [e]. split; [reflexivity|].
  unfold no_timer, Delivery.timers. cbn. rewrite He. reflexivity.
Qed.

Lemma no_timer_throw {A : Type} (e : string) : emits (@throw A e) no_timer.
Proof. apply no_timer_silent. reflexivity. Qed.

Lemma no_timer_ret {A : Type} (a : A) : emits (mret a : M A) no_timer.
Proof. apply no_timer_silent. reflexivity. Qed.

Lemma no_timer_redis_fault : emits next_redis_fault no_timer.
Proof.
  apply no_timer_silent. intros w. unfold next_redis_fault.
  destruct (redis_faults w); reflexivity.
Qed.

Lemma no_timer_redis_get (key : string) : emits (redis_get key) no_timer.
Proof.
  unfold redis_get. apply no_timer_bind; [apply no_timer_emit; reflexivity|].
  intros _. apply no_timer_bind; [apply no_timer_redis_fault|].
  intros [|]; [apply no_timer_throw|].
  apply no_timer_silent. intros w. destruct (store w !! key); reflexivity.
Qed.

Lemma no_timer_redis_set_EX (key : string) (v : redis_value) (seconds : Z) :
  emits (redis_set key v [ArgStr "EX"; ArgNum seconds]) no_timer.
Proof.
  unfold redis_set. apply no_timer_bind; [apply no_timer_emit; reflexivity|].
  intros _. apply no_timer_bind; [apply no_timer_redis_fault|].
  intros [|]; [apply no_timer_throw|].
  destruct (0 <? seconds);
    [apply no_timer_silent; reflexivity|apply no_timer_throw].
Qed.

Lemma no_timer_channel_publish (rk : string) (msg : payload)
  (opts : publish_options) : emits (channel_publish rk msg opts) no_timer.
Proof.
  unfold channel_publish. apply no_timer_bind.
  - apply no_timer_silent. intros w. unfold next_bus_fault.
    destruct (bus_faults w); reflexivity.
  - intros [|]; [apply no_timer_throw|apply no_timer_emit; reflexivity].
Qed.

Lemma no_timer_fire_outcome : emits next_fire_outcome no_timer.
Proof.
  apply no_timer_silent. intros w. unfold next_fire_outcome.
  destruct (backend w); reflexivity.
Qed.

Lemma no_timer_email_try (cfg : config) (key notif : string) (p : payload) :
  emits (email_try cfg key notif p) no_timer.
Proof.
  unfold email_try.
  destruct (negb (truthy (js_get_opt (metadata p) "email")));
    [apply no_timer_throw|].
  apply no_timer_bind; [apply no_timer_silent; reflexivity|]. intros html.
  apply no_timer_bind.
  { unfold sendEmailBreaker_fire.
    apply no_timer_bind; [apply no_timer_fire_outcome|].
    intros [o|]; [|apply no_timer_throw].
    unfold raw_send_email.
    apply no_timer_bind; [apply no_timer_emit; reflexivity|].
    intros _. destruct o; [apply no_timer_ret|apply no_timer_throw]. }
  intros _.
  apply no_timer_bind; [apply no_timer_silent; reflexivity|]. intros sent_at.
  apply no_timer_bind; [apply no_timer_redis_set_EX|]. intros _.
  apply no_timer_emit. reflexivity.
Qed.

Lemma no_timer_push_try (cfg : config) (key notif : string) (p : payload) :
  emits (push_try cfg key notif p) no_timer.
Proof.
  unfold push_try.
  destruct (negb (truthy (js_get_opt (metadata p) "push_token")));
    [apply no_timer_throw|].
  destruct (js_get_opt (metadata p) "push_token");
    try apply no_timer_throw.
  destruct (String.length s <? 10)%nat; [apply no_timer_throw|].
  apply no_timer_bind.
  { unfold sendPushBreaker_fire.
    apply no_timer_bind; [apply no_timer_fire_outcome|].
    intros [o|]; [|apply no_timer_throw].
    unfold raw_send_push.
    destruct (firebase_apps cfg =? 0)%nat; [apply no_timer_throw|].
    apply no_timer_bind; [apply no_timer_emit; reflexivity|].
    intros _. destruct o; [apply no_timer_ret|apply no_timer_throw]. }
  intros r. destruct (has_error r); [apply no_timer_throw|].
  apply no_timer_bind; [apply no_timer_silent; reflexivity|]. intros sent_at.
  apply no_timer_bind; [apply no_timer_redis_set_EX|]. intros _.
  apply no_timer_emit. reflexivity.
Qed.

Lemma no_timer_pickup (cfg : config) (channel_name : string)
  (content : bus_body) : emits (pickup cfg channel_name content) no_timer.
Proof.
  unfold pickup. destruct (JSON_parse content) as [[p|]|e].
  - apply no_timer_bind.
    { apply no_timer_silent. intros w. rewrite or_uuid_eval.
      apply after_id_trace. }
    intros req_id. apply no_timer_bind.
    { apply no_timer_silent. intros w. rewrite or_uuid_eval.
      apply after_id_trace. }
    intros notif. cbv zeta.
    apply no_timer_bind; [apply no_timer_redis_get|]. intros already.
    destruct (present already).
    + apply no_timer_bind; [apply no_timer_emit; reflexivity|].
      intros _. apply no_timer_ret.
    + apply no_timer_bind; [apply no_timer_redis_set_EX|].
      intros _. apply no_timer_ret.
  - apply no_timer_throw.
  - apply no_timer_bind; [apply no_timer_emit; reflexivity|].
    intros _. apply no_timer_ret.
Qed.

(** The [catch] block sets no timer in the dead-letter branch and exactly
    the retry timer otherwise. *)
Lemma on_error_timers (cfg : config) (rk key notif err : string) (q : payload)
  (w : world) :
  exists evs,
    trace (snd (on_error cfg rk key notif q err w)) = trace w ++ evs
    /\ (Delivery.timers evs = []
        \/ Z.of_N (attempts_of q + 1) < MAX_ATTEMPTS cfg
           /\ Delivery.timers evs =
                [(delay_ms (attempts_of q + 1), rk,
                  set_attempts q (attempts_of q + 1))]).
Proof.
  destruct (Z.lt_ge_cases (Z.of_N (attempts_of q + 1)) (MAX_ATTEMPTS cfg))
    as [Hlt|Hge].
  - pose proof (on_error_retry cfg rk key notif err q w Hlt) as Hrun.
    rewrite Hrun. eexists. split; [reflexivity|]. right.
    split; [exact Hlt|reflexivity].
  - assert (emits (on_error cfg rk key notif q err) no_timer) as Hq.
    { unfold on_error. cbv zeta.
      change (attempts_of (set_attempts q (attempts_of q + 1)))
        with (attempts_of q + 1)%N.
      destruct (Z.leb_spec (MAX_ATTEMPTS cfg) (Z.of_N (attempts_of q + 1)));
        [|lia].
      apply no_timer_bind; [apply no_timer_silent; reflexivity|].
      intros failed.
      apply no_timer_bind; [apply no_timer_channel_publish|]. intros _.
      apply no_timer_bind; [apply no_timer_redis_set_EX|]. intros _.
      apply no_timer_emit. reflexivity. }
    destruct (Hq w) as (evs & Ht & Hn). exists evs. split; [exact Ht|].
    left. exact Hn.
Qed.

(** A delivery schedules at most one retry, and only with a raised
    attempt count below [MAX_ATTEMPTS]. *)
Lemma consume_timers (cfg : config) (channel_name : string)
  (try_block : string -> string -> payload -> M unit) (content : bus_body)
  (w : world) :
  (forall key notif p, emits (try_block key notif p) no_timer) ->
  exists evs,
    trace (snd (consume cfg channel_name try_block (Some content) w))
    = trace w ++ evs
    /\ at_most_one_retry cfg channel_name content evs.
Proof.
  intros Htry. unfold consume, mbind, M_bind.
  destruct (no_timer_pickup cfg channel_name content w) as (evs1 & Ht1 & Hq1).
  unfold no_timer in Hq1.
  destruct (pickup cfg channel_name content w)
    as [[[[[key notif] q]|]|e] w1] eqn:Hpick; cbn [fst snd] in *.
  - unfold try_catch.
    destruct (Htry key notif q w1) as (evs2 & Ht2 & Hq2).
    unfold no_timer in Hq2.
    destruct (try_block key notif q w1) as [[[]|err] w2]; cbn [fst snd] in *.
    + exists (evs1 ++ evs2). rewrite Ht2, Ht1, app_assoc.
      split; [reflexivity|]. left. rewrite timers_app, Hq1, Hq2. reflexivity.
    + destruct (on_error_timers cfg channel_name key notif err q w2)
        as (evs3 & Ht3 & Hq3).
      exists (evs1 ++ evs2 ++ evs3). rewrite Ht3, Ht2, Ht1, !app_assoc.
      split; [reflexivity|].
      unfold at_most_one_retry. rewrite !timers_app, Hq1, Hq2. cbn [app].
      destruct Hq3 as [Hnone|[Hlt Hone]]; [left; exact Hnone|].
      destruct content as [p| |raw];
        [|cbn in Hpick; discriminate|cbn in Hpick; discriminate].
      destruct (pickup_reached _ _ _ _ _ _ _ _ Hpick) as (_ & _ & ->).
      right. exists p. split; [reflexivity|]. split; [exact Hlt|exact Hone].
  - exists evs1. split; [exact Ht1|]. left. exact Hq1.
  - exists evs1. split; [exact Ht1|]. left. exact Hq1.
Qed.

(** Following a message through its redeliveries ends as soon as the fuel
    exceeds the republishes it can still cause. *)
Lemma run_ends (cfg : config) (channel_name : string)
  (try_block : string -> string -> payload -> M unit) :
  (forall key notif p, emits (try_block key notif p) no_timer) ->
  forall (fuel : nat) (content : bus_body) (w : world),
    (retries_left cfg content < fuel)%nat ->
    exists w',
      Delivery.run fuel (consume cfg channel_name try_block) content w = Some w'.
Proof.
  intros Htry fuel. induction fuel as [|fuel IH]; intros content w Hfuel;
    [lia|].
  cbn [Delivery.run].
  destruct (consume_timers cfg channel_name try_block content w Htry)
    as (evs & Ht & Hq).
  destruct (consume cfg channel_name try_block (Some content) w) as [r w1].
  cbn [snd] in Ht. rewrite Ht, drop_app_length.
  destruct Hq as [->|(p & -> & Hlt & ->)]; [eexists; reflexivity|].
  destruct (channel_publish channel_name _ _ _) as [[[]|e] w3];
    [|eexists; reflexivity].
  apply IH. cbn [retries_left] in *.
  change (attempts_of (set_attempts p (attempts_of p + 1)))
    with (attempts_of p + 1)%N. lia.
Qed.

End BoundedRetries.

(** X22.  The retry ladder of a message object ends.  For a message whose
    content is a JSON object (its [attempts] absent or a natural number)
    and a [MAX_ATTEMPTS] that a double counts up to exactly, following the
    message through the redeliveries that its retry timers cause takes at
    most [MAX_ATTEMPTS - attempts] deliveries (one when that is not
    positive), whatever the store, the bus and the backend do: every
    delivery sets at most one timer, and the republished message carries
    an attempt count raised by one that stays below [MAX_ATTEMPTS]. *)
Theorem retry_ladder_ends (cfg : config) (p : payload) (w : world) :
  MAX_ATTEMPTS cfg <= 2 ^ 53 ->
  let deliveries :=
    S (Z.to_nat (MAX_ATTEMPTS cfg - 1 - Z.of_N (default 0%N (attempts p)))) in
  (exists w',
     Delivery.run deliveries (email_consume cfg) (BodyJson p) w = Some w')
  /\ (exists w',
        Delivery.run deliveries (push_consume cfg) (BodyJson p) w = Some w').
Proof.
  intros _ deliveries. split.
  - apply (run_ends cfg "email" (email_try cfg) (no_timer_email_try cfg)).
    subst deliveries. cbn [retries_left]. unfold attempts_of. lia.
  - apply (run_ends cfg "push" (push_try cfg) (no_timer_push_try cfg)).
    subst deliveries. cbn [retries_left]. unfold attempts_of. lia.
Qed.

(** ** The further statements at sample inputs *)

Lemma email_delivery_succeeds_witness :
  exists w',
    email_consume default_config (Some (BodyJson Samples.welcome_email))
      MoreSamples.accepting_world = (Ok tt, w')
    /\ lookup_live w' "email:idempotency:r1" =
         Some (status_doc "uuid-0" "delivered" [("sent_at", JStr "0")])
    /\ backend w' = [].
Proof.
  destruct (email_delivery_succeeds default_config Samples.welcome_email
              MoreSamples.accepting_world MoreSamples.welcome_html
              MoreSamples.accepted [] eq_refl eq_refl eq_refl eq_refl eq_refl
              eq_refl)
    as (w' & Hrun & _ & _ & Hread & Hbackend).
  exists w'. split; [exact Hrun|]. split; [exact Hread|exact Hbackend].
Defined.

Lemma push_delivery_succeeds_witness :
  exists w',
    push_consume default_config (Some (BodyJson Samples.push_with_token))
      MoreSamples.accepting_world = (Ok tt, w')
    /\ lookup_live w' "push:idempotency:r2" =
         Some (status_doc "uuid-0" "delivered" [("sent_at", JStr "0")])
    /\ backend w' = [].
Proof.
  destruct (push_delivery_succeeds default_config Samples.push_with_token
              MoreSamples.accepting_world "0123456789abcdef"
              MoreSamples.accepted [] eq_refl eq_refl eq_refl eq_refl)
    as (w' & Hrun & _ & Hread & Hbackend).
  - cbn. lia.
  - discriminate.
  - reflexivity.
  - reflexivity.
  - exists w'. split; [exact Hrun|]. split; [exact Hread|exact Hbackend].
Defined.

Lemma second_delivery_is_dropped_witness :
  exists w1 w2,
    email_consume default_config (Some (BodyJson Samples.welcome_email))
      MoreSamples.accepting_world = (Ok tt, w1)
    /\ email_consume default_config (Some (BodyJson Samples.welcome_email))
         (with_now w1 5000) = (Ok tt, w2)
    /\ emitted w1 w2 = [EvRedisGet "email:idempotency:r1"; EvAck]
    /\ store w2 = store w1.
Proof.
  destruct (second_delivery_is_dropped default_config Samples.welcome_email
              MoreSamples.accepting_world MoreSamples.welcome_html
              MoreSamples.accepted [] 5000 eq_refl eq_refl eq_refl eq_refl
              eq_refl eq_refl eq_refl)
    as (w1 & w2 & Hrun1 & Hrun2 & Hev & Hst & _).
  - simpl. lia.
  - exists w1, w2. split; [exact Hrun1|]. split; [exact Hrun2|].
    split; [exact Hev|exact Hst].
Defined.

Lemma open_breaker_skips_the_backend_witness :
  exists w',
    email_consume default_config (Some (BodyJson Samples.welcome_email))
      MoreSamples.open_world = (Ok tt, w')
    /\ emitted MoreSamples.open_picked w' =
         [EvSetTimeout 2000 "email" (set_attempts Samples.welcome_email 1);
          EvAck].
Proof.
  destruct (open_breaker_skips_the_backend default_config "email"
              (BodyJson Samples.welcome_email) MoreSamples.open_world
              MoreSamples.open_picked "email:idempotency:r1" "uuid-0"
              (normalized Samples.welcome_email) [] eq_refl eq_refl eq_refl)
    as [Hemail _].
  destruct (Hemail eq_refl (ex_intro _ MoreSamples.welcome_html eq_refl))
    as (w' & _ & Hrun & Hev).
  exists w'. split; [exact Hrun|exact Hev].
Defined.

Lemma push_without_firebase_never_calls_fcm_witness :
  push_try MoreSamples.no_firebase "push:idempotency:r2" "uuid-0"
    Samples.push_with_token MoreSamples.accepting_world =
  (Throw "firebase_not_initialized",
   with_backend MoreSamples.accepting_world []).
Proof.
  destruct (push_without_firebase_never_calls_fcm MoreSamples.no_firebase
              "push:idempotency:r2" "uuid-0" Samples.push_with_token
              MoreSamples.accepting_world "0123456789abcdef"
              (Resolves MoreSamples.accepted) [] eq_refl eq_refl)
    as [Hthrow _].
  - cbn. lia.
  - reflexivity.
  - exact Hthrow.
Defined.

Lemma delivered_write_failure_schedules_a_retry_witness :
  exists w',
    email_consume default_config (Some (BodyJson Samples.welcome_email))
      MoreSamples.flaky_world = (Ok tt, w')
    /\ Delivery.count Delivery.is_send (emitted MoreSamples.flaky_picked w')
       = 1%nat
    /\ Delivery.timers (emitted MoreSamples.flaky_picked w') =
         [(2000, "email", set_attempts Samples.welcome_email 1)]
    /\ Delivery.status_at w' "email:idempotency:r1" = Some (JStr "processing").
Proof.
  destruct (delivered_write_failure_schedules_a_retry default_config
              (BodyJson Samples.welcome_email) MoreSamples.flaky_world
              MoreSamples.flaky_picked "email:idempotency:r1" "uuid-0"
              (normalized Samples.welcome_email) MoreSamples.welcome_html
              MoreSamples.accepted [] eq_refl eq_refl eq_refl eq_refl eq_refl
              eq_refl)
    as (w' & Hrun & Hev & Hst).
  exists w'. split; [exact Hrun|]. rewrite Hev.
  split; [reflexivity|]. split; [reflexivity|].
  unfold Delivery.status_at. rewrite Hst. reflexivity.
Defined.

Lemma unauthenticated_submission_has_no_effect_witness :
  Gateway.post_notifications Samples.gateway_env None Samples.welcome_email
    Samples.empty_world =
  (Ok {| code := 401;
         body := Envelope (JBool false) None (JStr "invalid api key")
                   (JStr "unauthorized") (JObj defaultMeta) |},
   Samples.empty_world).
Proof.
  apply (unauthenticated_submission_has_no_effect Samples.gateway_env
           Samples.welcome_email None Samples.empty_world).
  left. reflexivity.
Defined.

Lemma status_route_rejections_witness :
  StatusRoute.post_status MoreSamples.status_env (Some "secret") "sms"
    (Some MoreSamples.callback) Samples.empty_world =
    (Ok (StatusRoute.rejection 400 "invalid_notification_type"
           "Allowed: email, push"), Samples.empty_world)
  /\ StatusRoute.post_status MoreSamples.status_env (Some "secret") "email"
       (Some MoreSamples.bad_callback) Samples.empty_world =
       (Ok (StatusRoute.rejection 400 "validation_error"
              "notification_id and valid status are required"),
        Samples.empty_world).
Proof.
  split.
  - destruct (status_route_rejections MoreSamples.status_env (Some "secret")
                "sms" MoreSamples.callback Samples.empty_world)
      as (_ & Hchannel & _).
    apply Hchannel; reflexivity.
  - destruct (status_route_rejections MoreSamples.status_env (Some "secret")
                "email" MoreSamples.bad_callback Samples.empty_world)
      as (_ & _ & Hbody).
    apply Hbody; [reflexivity|reflexivity|]. right. right. reflexivity.
Defined.



Lemma createResponse_merges_meta_witness :
  exists data m,
    createResponse MoreSamples.paged =
      Envelope (JBool true) data JUndefined (JStr "ok") (JObj m)
    /\ assoc m "total" = Some (JNum 7)
    /\ data = None.
Proof.
  destruct (createResponse_merges_meta MoreSamples.paged "total")
    as (data & m & Hbody & Hmeta & Hdata).
  - cbn. repeat constructor; cbn; intuition discriminate.
  - exists data, m. split; [exact Hbody|]. split; [exact Hmeta|].
    apply Hdata. left. reflexivity.
Defined.

Lemma render_template_output_witness :
  Renderer.render_template "no_such_template"
    (Some [("name", JStr "Ada"); ("visits", JNum 3)]) = Ok "Ada - notification".
Proof.
  destruct (render_template_output "no_such_template"
              (Some [("name", JStr "Ada"); ("visits", JNum 3)])
              eq_refl eq_refl) as [Hout _].
  exact Hout.
Defined.

Lemma retry_ladder_ends_witness :
  (exists w',
     Delivery.run 5 (email_consume default_config)
       (BodyJson Samples.anonymous_email) Samples.smtp_world = Some w')
  /\ (exists w',
        Delivery.run 5 (push_consume default_config)
          (BodyJson Samples.anonymous_email) Samples.smtp_world = Some w').
Proof.
  apply (retry_ladder_ends default_config Samples.anonymous_email
           Samples.smtp_world).
  vm_compute. discriminate.
Defined.

Lemma status_api_after_delivery_witness :
  exists w1 w2 r,
    email_consume default_config (Some (BodyJson Samples.welcome_email))
      MoreSamples.accepting_world = (Ok tt, w1)
    /\ get_status "email" "r1" (with_now w1 1000) = (Ok r, w2)
    /\ code r = 200.
Proof.
  destruct (status_api_after_delivery default_config Samples.welcome_email
              MoreSamples.accepting_world MoreSamples.welcome_html
              MoreSamples.accepted [] "r1" 1000 eq_refl eq_refl eq_refl
              eq_refl eq_refl eq_refl eq_refl)
    as (w1 & w2 & r & Hrun & Hget & _ & Hlive & _).
  - discriminate.
  - lia.
  - exists w1, w2, r. split; [exact Hrun|]. split; [exact Hget|].
    rewrite Hlive by reflexivity. reflexivity.
Defined.
